(** * webapp: users, products, product images and health check

    A shallow embedding of the request handlers of the Express
    application (routes/user.js, routes/product.js, routes/image.js,
    routes/health.js), of the Sequelize models they use and of the
    two AWS helpers (services/s3Service.js, utils/sns.js).

    Conventions of the embedding.
    - A handler is a computation in a state-and-exception monad over
      [Sys]: the relational tables, the bucket and the topic (the
      [World]) together with the journal of collaborator calls issued
      during the request.  [await] is the only way to reach a
      collaborator; [try_catch] is the handler's [try { } catch { }].
    - Everything a handler cannot decide by itself is read from the
      request environment [Env]: which collaborator calls reject, the
      clock (read once per request), and the random identifiers.
    - The tables are keyed by primary key; the constraints a table
      enforces by itself (not null, isEmail, unique) make [create]
      reject.  The message texts of such library errors are Sequelize's
      own and are only named here.
    - [req.user] is the model instance left by the [basicAuth]
      middleware; the middleware itself runs before the handler and is
      not part of it. *)

From stdpp Require Import gmap strings list fin_maps.
From Stdlib Require Import ZArith Ascii String.

Local Open Scope Z_scope.
Local Open Scope string_scope.

(** ** JSON values and responses *)

Inductive JValue :=
| JNull
| JBool (b : bool)
| JNum (n : Z)
| JStr (s : string)
| JDate (t : Z)
| JStrs (l : list string).

Abbreviation JObject := (gmap string JValue).

Inductive Body :=
| NoBody
| Obj (o : JObject)
| Arr (os : list JObject).

Record Response := mkResponse {
  status : Z;
  headers : gmap string string;
  body : Body
}.

(** [res.status(n).end()] *)
Definition end_ (n : Z) : Response := mkResponse n ∅ NoBody.
(** [res.status(n).json(o)] *)
Definition json (n : Z) (o : JObject) : Response := mkResponse n ∅ (Obj o).
Definition json_list (n : Z) (os : list JObject) : Response := mkResponse n ∅ (Arr os).

(** JavaScript truthiness of a possibly missing string ([!x] is its negation). *)
Definition truthy (x : option string) : bool :=
  match x with
  | Some s => negb (String.eqb s "")
  | None => false
  end.

Definition opt_str (x : option string) : JValue :=
  match x with Some s => JStr s | None => JNull end.
Definition opt_date (x : option Z) : JValue :=
  match x with Some t => JDate t | None => JNull end.
Definition opt_num (x : option Z) : JValue :=
  match x with Some t => JNum t | None => JNull end.

(** ** Exceptions, collaborator calls, environment *)

Record Exn := mkExn { exn_name : string; exn_message : string }.

(** The calls a handler awaits on a collaborator. *)
Module Call.
Inductive t :=
| User_findOne | User_findByPk | User_create | User_save
| Product_findByPk | Product_findOne | Product_save | Product_destroy
| Image_findOne | Image_findAll | Image_create | Image_destroy
| S3_PutObject | S3_DeleteObject
| SNS_Publish
| HealthCheck_create.

#[global] Instance eq_dec : EqDecision t.
Proof. solve_decision. Defined.
End Call.

Record Env := mkEnv {
  throws : Call.t → option Exn;   (* the collaborator call rejects with this error *)
  clock : Z;                    (* Date.now() / new Date(), in milliseconds *)
  uuidv4 : string;              (* uuidv4() of the verification token *)
  pk_uuid : string;             (* DataTypes.UUIDV4 default of a primary key *)
  randomUUID : string;          (* crypto.randomUUID() of the object name *)
  genSalt : string;             (* bcrypt.genSaltSync(10) *)
  SNS_TOPIC_ARN : option string (* process.env.SNS_TOPIC_ARN *)
}.

(** ** Models *)

Module User.
(** sequelize.define('users', ...) *)
Record t := mk {
  id : string;
  first_name : string;
  last_name : string;
  password : string;
  username : string;
  account_created : Z;
  account_updated : Z;
  email_verified : bool;
  verification_token : option string;
  verification_token_expiry : option Z
}.

(** [this.get()]: the plain object of all attribute values. *)
Definition get (u : t) : JObject :=
  <["id" := JStr (id u)]>
  (<["first_name" := JStr (first_name u)]>
  (<["last_name" := JStr (last_name u)]>
  (<["password" := JStr (password u)]>
  (<["username" := JStr (username u)]>
  (<["account_created" := JDate (account_created u)]>
  (<["account_updated" := JDate (account_updated u)]>
  (<["email_verified" := JBool (email_verified u)]>
  (<["verification_token" := opt_str (verification_token u)]>
  (<["verification_token_expiry" := opt_date (verification_token_expiry u)]>
   ∅))))))))).

(** User.prototype.toJSON *)
Definition toJSON (u : t) : JObject :=
  let values := get u in
  let values := delete "password" values in
  let values := delete "verification_token" values in
  let values := delete "verification_token_expiry" values in
  values.

Definition set_names_password (fn ln pw : string) (u : t) : t :=
  mk (id u) fn ln pw (username u) (account_created u) (account_updated u)
     (email_verified u) (verification_token u) (verification_token_expiry u).

Definition set_verified (u : t) : t :=
  mk (id u) (first_name u) (last_name u) (password u) (username u)
     (account_created u) (account_updated u) true None None.

(** hooks.beforeUpdate *)
Definition beforeUpdate (now : Z) (u : t) : t :=
  mk (id u) (first_name u) (last_name u) (password u) (username u)
     (account_created u) now
     (email_verified u) (verification_token u) (verification_token_expiry u).
End User.


Module Product.
(** Modelled from the spec: models/Product.js is not part of the
    sources at hand.  A product has the [owner_user_id] of the
    identity that created it and the descriptive attributes the
    routes read and assign (name, description, sku, manufacturer,
    quantity); an attribute that was never given a value is [None].
    Its primary key [id] is the key of the row in the table. *)
Record t := mk {
  name : option string;
  description : option string;
  sku : option string;
  manufacturer : option string;
  quantity : option Z;
  owner_user_id : string
}.

(** The attribute values serialised by [res.json(product)]. *)
Definition get (id : string) (p : t) : JObject :=
  <["id" := JStr id]>
  (<["name" := opt_str (name p)]>
  (<["description" := opt_str (description p)]>
  (<["sku" := opt_str (sku p)]>
  (<["manufacturer" := opt_str (manufacturer p)]>
  (<["quantity" := opt_num (quantity p)]>
  (<["owner_user_id" := JStr (owner_user_id p)]>
   ∅)))))).
End Product.

Module Image.
(** sequelize.define('Image', ...); the primary key [image_id] is
    the key of the row in the table. *)
Record t := mk {
  product_id : string;
  file_name : string;
  s3_bucket_path : string;
  date_created : Z
}.

(** The five fields every image response lists. *)
Definition fields (image_id : string) (i : t) : JObject :=
  <["image_id" := JStr image_id]>
  (<["product_id" := JStr (product_id i)]>
  (<["file_name" := JStr (file_name i)]>
  (<["date_created" := JDate (date_created i)]>
  (<["s3_bucket_path" := JStr (s3_bucket_path i)]>
   ∅)))).
End Image.

(** The message [publishUserRegistration] serialises for the topic. *)
Record SnsMessage := mkSns {
  sns_email : option string;
  sns_firstName : option string;
  sns_lastName : option string;
  sns_token : string
}.

(** ** The world outside the process *)

Record World := mkWorld {
  users : list User.t;               (* table users, in insertion order *)
  products : gmap string Product.t;  (* table of products, by primary key *)
  images : gmap string Image.t;      (* table Images, by primary key *)
  bucket : gmap string string;       (* S3 objects, by key *)
  topic : list SnsMessage;           (* messages published to the topic *)
  health_checks : list Z             (* check_datetime of the health rows *)
}.

Definition with_users (us : list User.t) (w : World) : World :=
  mkWorld us (products w) (images w) (bucket w) (topic w) (health_checks w).
Definition with_products (ps : gmap string Product.t) (w : World) : World :=
  mkWorld (users w) ps (images w) (bucket w) (topic w) (health_checks w).
Definition with_images (imgs : gmap string Image.t) (w : World) : World :=
  mkWorld (users w) (products w) imgs (bucket w) (topic w) (health_checks w).
Definition with_bucket (b : gmap string string) (w : World) : World :=
  mkWorld (users w) (products w) (images w) b (topic w) (health_checks w).
Definition with_topic (t : list SnsMessage) (w : World) : World :=
  mkWorld (users w) (products w) (images w) (bucket w) t (health_checks w).
Definition with_health_checks (h : list Z) (w : World) : World :=
  mkWorld (users w) (products w) (images w) (bucket w) (topic w) h.

(** The world and the journal of the collaborator calls of one request. *)
Record Sys := mkSys {
  store : World;
  calls : list Call.t
}.

(** ** The handler monad: state and exceptions *)

Definition M (A : Type) : Type := Sys → (Exn + A) * Sys.

Definition ret {A} (a : A) : M A := λ s, (inr a, s).
Definition throw {A} (e : Exn) : M A := λ s, (inl e, s).
Definition bind {A B} (m : M A) (k : A → M B) : M B :=
  λ s, match m s with
       | (inr a, s') => k a s'
       | (inl e, s') => (inl e, s')
       end.
(** [try { m } catch (error) { h error }]: effects before the throw stay. *)
Definition try_catch {A} (m : M A) (h : Exn → M A) : M A :=
  λ s, match m s with
       | (inr a, s') => (inr a, s')
       | (inl e, s') => h e s'
       end.

Notation "'let*' x ':=' m 'in' k" := (bind m (λ x, k))
  (at level 10, x name, m at level 100, k at level 200).

(** [await c(...)]: the call is journalled; it rejects when the
    environment says so, otherwise [op] runs against the world and may
    itself reject (a constraint of the table). *)
Definition await {A} (env : Env) (c : Call.t) (op : World → (Exn + A) * World) : M A :=
  λ s, let journal := (calls s ++ [c])%list in
       match throws env c with
       | Some e => (inl e, mkSys (store s) journal)
       | None => let '(r, w) := op (store s) in (r, mkSys w journal)
       end.

(** A query: reads the world and cannot reject by itself. *)
Definition query {A} (f : World → A) : World → (Exn + A) * World :=
  λ w, (inr (f w), w).
(** A statement: changes the world and cannot reject by itself. *)
Definition exec (f : World → World) : World → (Exn + unit) * World :=
  λ w, (inr tt, f w).

(** Runs a handler on a world with an empty journal.  A handler
    catches everything, so an escaped exception has no response of its
    own; Express would answer 500. *)
Definition run (h : M Response) (w : World) : Response * Sys :=
  match h (mkSys w []) with
  | (inr r, s) => (r, s)
  | (inl _, s) => (end_ 500, s)
  end.

(** ** Requests *)

(** [req.body] of the user routes. *)
Record UserBody := mkUserBody {
  b_first_name : option string;
  b_last_name : option string;
  b_password : option string;
  b_username : option string
}.

(** [req.body] of the product routes. *)
Record ProductBody := mkProductBody {
  b_name : option string;
  b_description : option string;
  b_sku : option string;
  b_manufacturer : option string;
  b_quantity : option Z
}.

(** [req.file] as multer leaves it. *)
Record File := mkFile {
  originalname : string;
  mimetype : string;
  buffer : string
}.

Inductive Method := GET | HEAD | POST | PUT | PATCH | DELETE | OPTIONS.

#[global] Instance Method_eq_dec : EqDecision Method.
Proof. solve_decision. Defined.

(** ** isValidUUID (routes/user.js) *)

(** [[0-9a-f]] under the [i] flag. *)
Definition is_hex (c : ascii) : bool :=
  let n := N_of_ascii c in
  ((48 <=? n) && (n <=? 57) || (97 <=? n) && (n <=? 102) || (65 <=? n) && (n <=? 70))%N.

(** The pieces of the pattern: [[0-9a-f]{n}] and a literal character. *)
Inductive Atom :=
| Hex (n : nat)
| Lit (c : ascii).

(** Consumes exactly [n] hexadecimal digits from the front of [s]. *)
Fixpoint eat_hex (n : nat) (s : string) : option string :=
  match n with
  | O => Some s
  | S n' =>
      match s with
      | String c s' => if is_hex c then eat_hex n' s' else None
      | EmptyString => None
      end
  end.

(** [/^...$/.test(s)]: the atoms in sequence, anchored at both ends. *)
Fixpoint regex_test (p : list Atom) (s : string) : bool :=
  match p with
  | [] => match s with EmptyString => true | _ => false end
  | Hex n :: p' =>
      match eat_hex n s with
      | Some rest => regex_test p' rest
      | None => false
      end
  | Lit c :: p' =>
      match s with
      | String c' s' => if Ascii.eqb c c' then regex_test p' s' else false
      | EmptyString => false
      end
  end.

Definition uuidRegex : list Atom :=
  [Hex 8; Lit "-"; Hex 4; Lit "-"; Hex 4; Lit "-"; Hex 4; Lit "-"; Hex 12].

Definition isValidUUID (uuid : string) : bool := regex_test uuidRegex uuid.

(** The wording of the specification: five groups of 8, 4, 4, 4 and 12
    hexadecimal digits separated by dashes. *)
Fixpoint all_hex (s : string) : bool :=
  match s with
  | EmptyString => true
  | String c s' => is_hex c && all_hex s'
  end.

Definition hex_group (n : nat) (s : string) : Prop :=
  String.length s = n ∧ all_hex s = true.

Definition well_formed_uuid (s : string) : Prop :=
  ∃ a b c d e,
    s = a ++ "-" ++ b ++ "-" ++ c ++ "-" ++ d ++ "-" ++ e
    ∧ hex_group 8 a ∧ hex_group 4 b ∧ hex_group 4 c ∧ hex_group 4 d ∧ hex_group 12 e.

(** ASCII letters compared without regard to case: the reading of two
    strings under the [i] flag. *)
Definition lower (c : ascii) : ascii :=
  let n := N_of_ascii c in
  if ((65 <=? n) && (n <=? 90))%N then ascii_of_N (n + 32) else c.

Fixpoint same_ignoring_case (s t : string) : bool :=
  match s, t with
  | EmptyString, EmptyString => true
  | String c s', String d t' => Ascii.eqb (lower c) (lower d) && same_ignoring_case s' t'
  | _, _ => false
  end.

(** ** Sample data *)

(** Stand-ins for the validators and the library functions. *)
Definition no_errors {A} (_ : A) : list string := [].
Definition sample_isEmail (s : string) : bool := true.
Definition sample_hashSync (value salt : string) : string := "$2b$10$" ++ salt ++ value.
Definition sample_extname (f : string) : string := ".png".

Definition alice : User.t :=
  User.mk "a11ce000-0000-4000-8000-000000000001" "Alice" "Liddell" "$2b$10$saltwonder"
          "alice@example.com" 500 900 true None None.

Definition bob : User.t :=
  User.mk "b0b00000-0000-4000-8000-000000000002" "Bob" "Stone" "$2b$10$saltbuilder"
          "bob@example.com" 1000 1000 false (Some "tok-bob") (Some 61000).

Definition teapot_id : string := "7ea90700-0000-4000-8000-000000000003".
Definition teapot : Product.t :=
  Product.mk (Some "Teapot") (Some "Porcelain") (Some "TEA-1") (Some "Hatter") (Some 3)
             (User.id alice).

Definition photo_id : string := "f0700000-0000-4000-8000-000000000004".
Definition photo : Image.t :=
  Image.mk teapot_id "teapot.png"
           "a11ce000-0000-4000-8000-000000000001/7ea90700-0000-4000-8000-000000000003/x.png"
           2000.

Definition sample_world : World :=
  mkWorld [alice; bob]
          {[ teapot_id := teapot ]}
          {[ photo_id := photo ]}
          {[ Image.s3_bucket_path photo := "PNG..." ]}
          [] [].

(** Every collaborator answers; the clock stands at Bob's expiry instant. *)
Definition env_ok : Env :=
  mkEnv (λ _, None) 61000 "tok-new" "ca701000-0000-4000-8000-000000000005"
        "0b1ec700-0000-4000-8000-000000000006" "salt" (Some "arn:aws:sns:us-east-1:1:verify").

(** As [env_ok], with exactly the call [c] rejecting. *)
Definition env_failing (c : Call.t) : Env :=
  mkEnv (λ c', if decide (c' = c) then Some (mkExn "Error" "service unavailable") else None)
        61000 "tok-new" "ca701000-0000-4000-8000-000000000005"
        "0b1ec700-0000-4000-8000-000000000006" "salt" (Some "arn:aws:sns:us-east-1:1:verify").

Definition carol_body : UserBody :=
  mkUserBody (Some "Carol") (Some "Danvers") (Some "Sup3rSecret!") (Some "carol@example.com").

Definition kettle_id : string := "ca701000-0000-4000-8000-000000000005".
Definition kettle_body : ProductBody :=
  mkProductBody (Some "Kettle") (Some "Copper") (Some "KET-1") (Some "Hatter") (Some 7).
Definition quantity_only : ProductBody := mkProductBody None None None None (Some 9).
Definition empty_patch : ProductBody := mkProductBody None None None None None.

Definition dave_update : UserBody :=
  mkUserBody (Some "Alicia") (Some "Hargreaves") (Some "N3wPassw0rd!") (Some "mallory@example.com").
Definition nameless_update : UserBody :=
  mkUserBody (Some "Alicia") None (Some "N3wPassw0rd!") None.

Definition portrait : File := mkFile "portrait.PNG" "image/png" "PNG-bytes".
Definition portrait_id : string := "ca701000-0000-4000-8000-000000000005".


(** A validator that objects to every body. *)
Definition objects {A} (_ : A) : list string := ["first_name is required"].

Definition alice_again : UserBody :=
  mkUserBody (Some "Alice") (Some "Liddell") (Some "Sup3rSecret!") (Some "alice@example.com").
(** The clock one millisecond after the expiry of a token issued at [env_ok]. *)
Definition env_late : Env :=
  mkEnv (λ _, None) 121001 "tok-other" "ca701000-0000-4000-8000-000000000008"
        "0b1ec700-0000-4000-8000-000000000009" "salt" (Some "arn:aws:sns:us-east-1:1:verify").

(** ** Collaborators and handlers *)

Section Handlers.

(** utils/validation.js is not part of the sources at hand: each
    validator is any function from the body to its list of errors. *)
Variable validateUserCreate : UserBody → list string.
Variable validateUserUpdate : UserBody → list string.
Variable validateProductUpdate : ProductBody → list string.
Variable validateProductPatch : ProductBody → list string.
(** Library functions: validator's isEmail, bcrypt.hashSync(value, salt),
    path.extname. *)
Variable isEmail : string → bool.
Variable hashSync : string → string → string.
Variable extname : string → string.

Definition Error (msg : string) : Exn := mkExn "Error" msg.

(** *** Table users *)

Definition by_username (un : string) (u : User.t) : bool :=
  String.eqb (User.username u) un.
Definition by_id (pk : string) (u : User.t) : bool :=
  String.eqb (User.id u) pk.

(** [User.findOne({ where: { username } })]; Sequelize rejects an
    [undefined] value in a where clause. *)
Definition User_findOne (un : option string) : World → (Exn + option User.t) * World :=
  λ w, match un with
       | Some un => (inr (List.find (by_username un) (users w)), w)
       | None => (inl (Error "WHERE parameter username has invalid undefined value"), w)
       end.

(** The id column is DataTypes.UUID: the database compares the key
    asked for with the ids as UUIDs, whatever the case of the
    hexadecimal digits in its spelling. *)
Definition by_uuid (pk : string) (u : User.t) : bool :=
  same_ignoring_case (User.id u) pk.

(** [User.findByPk(userId)] *)
Definition User_findByPk (pk : string) : World → (Exn + option User.t) * World :=
  query (λ w, List.find (by_uuid pk) (users w)).

(** [User.create({...})]: the password setter hashes the value, the
    columns are allowNull: false, username isEmail and unique, id is
    the primary key. *)
Definition User_create (env : Env) (fn ln pw un : option string)
    (token : option string) (expiry : option Z) (verified : bool)
    : World → (Exn + User.t) * World :=
  λ w,
  match pw with
  | None => (inl (Error "data and salt arguments required"), w)
  | Some pw =>
      match fn, ln, un with
      | Some fn, Some ln, Some un =>
          if negb (isEmail un) then
            (inl (mkExn "SequelizeValidationError" "Validation isEmail on username failed"), w)
          else if existsb (λ u, by_id (pk_uuid env) u || by_username un u) (users w) then
            (inl (mkExn "SequelizeUniqueConstraintError" "Validation error"), w)
          else
            let user := User.mk (pk_uuid env) fn ln (hashSync pw (genSalt env)) un
                                (clock env) (clock env) verified token expiry in
            (inr user, with_users (users w ++ [user])%list w)
      | _, _, _ =>
          (inl (mkExn "SequelizeValidationError" "notNull Violation"), w)
      end
  end.

(** [user.save()] after assignments to an instance: UPDATE users SET
    the assigned columns (and account_updated, by the beforeUpdate
    hook) WHERE id = pk.  [assign] is the assignments. *)
Definition User_save (env : Env) (pk : string) (assign : User.t → User.t)
    : World → (Exn + unit) * World :=
  exec (λ w,
    with_users
      (List.map (λ u, if by_id pk u then User.beforeUpdate (clock env) (assign u) else u)
                (users w)) w).

(** *** Table of products *)

(** [Product.findByPk(productId)] *)
Definition Product_findByPk (pk : string) : World → (Exn + option Product.t) * World :=
  query (λ w, products w !! pk).

(** [Product.findOne({ where: { id: productId, owner_user_id: userId } })] *)
Definition Product_findOne (pk owner : string) : World → (Exn + option Product.t) * World :=
  query (λ w,
    match products w !! pk with
    | Some p => if String.eqb (Product.owner_user_id p) owner then Some p else None
    | None => None
    end).

(** [product.save()] after assignments: UPDATE ... WHERE id = pk. *)
Definition Product_save (pk : string) (assign : Product.t → Product.t)
    : World → (Exn + unit) * World :=
  exec (λ w, with_products (alter assign pk (products w)) w).

(** [product.destroy()]; the rows of Images that reference the product
    go with it (Image.belongsTo(Product, { onDelete: 'CASCADE' })). *)
Definition Product_destroy (pk : string) : World → (Exn + unit) * World :=
  exec (λ w,
    with_images (filter (λ kv, Image.product_id kv.2 ≠ pk) (images w))
      (with_products (delete pk (products w)) w)).

(** *** Table Images *)

(** [Image.findOne({ where: { image_id: imageId, product_id: productId } })] *)
Definition Image_findOne (imageId productId : string) : World → (Exn + option Image.t) * World :=
  query (λ w,
    match images w !! imageId with
    | Some i => if String.eqb (Image.product_id i) productId then Some i else None
    | None => None
    end).

(** [Image.findAll({ where: { product_id: productId }, attributes })] *)
Definition Image_findAll (productId : string)
    : World → (Exn + list (string * Image.t)) * World :=
  query (λ w,
    map_to_list (filter (λ kv, Image.product_id kv.2 = productId) (images w))).

(** [Image.create({ product_id, file_name, s3_bucket_path })] *)
Definition Image_create (env : Env) (productId fileName s3Path : string)
    : World → (Exn + string * Image.t) * World :=
  λ w,
  match images w !! pk_uuid env with
  | Some _ => (inl (mkExn "SequelizeUniqueConstraintError" "Validation error"), w)
  | None =>
      let image := Image.mk productId fileName s3Path (clock env) in
      (inr (pk_uuid env, image), with_images (<[pk_uuid env := image]> (images w)) w)
  end.

(** [image.destroy()] *)
Definition Image_destroy (pk : string) : World → (Exn + unit) * World :=
  exec (λ w, with_images (delete pk (images w)) w).

(** *** services/s3Service.js *)

(** uploadImageToS3; the ContentType of the object is not tracked. *)
Definition uploadImageToS3 (env : Env) (fileBuffer originalFilename userId productId : string)
    : M (string * string) :=
  let fileExtension := extname originalFilename in
  let uniqueFileName := randomUUID env ++ fileExtension in
  let s3Key := userId ++ "/" ++ productId ++ "/" ++ uniqueFileName in
  try_catch
    (let* _ := await env Call.S3_PutObject
                 (exec (λ w, with_bucket (<[s3Key := fileBuffer]> (bucket w)) w)) in
     ret (originalFilename, s3Key))
    (λ error, throw (Error "Failed to upload image to S3")).

(** deleteImageFromS3 *)
Definition deleteImageFromS3 (env : Env) (s3Path : string) : M unit :=
  try_catch
    (await env Call.S3_DeleteObject
       (exec (λ w, with_bucket (delete s3Path (bucket w)) w)))
    (λ error, throw (Error "Failed to delete image from S3")).

(** *** utils/sns.js *)

(** publishUserRegistration *)
Definition publishUserRegistration (env : Env) (userData : SnsMessage) : M unit :=
  let topicArn := SNS_TOPIC_ARN env in
  if negb (truthy topicArn) then throw (Error "SNS topic not configured")
  else
    try_catch
      (await env Call.SNS_Publish
         (exec (λ w, with_topic (topic w ++ [userData])%list w)))
      (λ error, throw error).

(** *** routes/user.js *)

Definition err (msg : string) : JObject := {[ "error" := JStr msg ]}.
Definition msg (m : string) : JObject := {[ "message" := JStr m ]}.
Definition errs (l : list string) : JObject := {[ "errors" := JStrs l ]}.

Definition nonempty {A} (l : list A) : bool :=
  match l with [] => false | _ => true end.

(** POST /v1/user *)
Definition post_user (env : Env) (body : UserBody) : M Response :=
  try_catch
    (let validationErrors := validateUserCreate body in
     if nonempty validationErrors then ret (json 400 (errs validationErrors))
     else
       let first_name := b_first_name body in
       let last_name := b_last_name body in
       let password := b_password body in
       let username := b_username body in
       let* existingUser := await env Call.User_findOne (User_findOne username) in
       match existingUser with
       | Some _ => ret (json 400 (err "User with this email already exists"))
       | None =>
           let verificationToken := uuidv4 env in
           let tokenExpiry := (clock env + 60 * 1000)%Z in
           let* user := await env Call.User_create
                          (User_create env first_name last_name password username
                                       (Some verificationToken) (Some tokenExpiry) false) in
           let* _ := try_catch
                       (publishUserRegistration env
                          (mkSns username first_name last_name verificationToken))
                       (λ snsError, ret tt) in
           ret (json 201 (User.toJSON user))
       end)
    (λ error,
       if String.eqb (exn_name error) "SequelizeValidationError"
       then ret (json 400 (err (exn_message error)))
       else ret (json 400 (err "Failed to create user"))).

(** [a !== b] on a nullable column and a query string. *)
Definition strict_ne (a : option string) (b : string) : bool :=
  match a with
  | Some a => negb (String.eqb a b)
  | None => true
  end.

(** [now > expiry] on dates; a null expiry converts to 0. *)
Definition date_gt (now : Z) (expiry : option Z) : bool :=
  match expiry with
  | Some e => (e <? now)%Z
  | None => (0 <? now)%Z
  end.

(** GET /v1/user/verify *)
Definition get_user_verify (env : Env) (email token : option string) : M Response :=
  try_catch
    (if negb (truthy email) || negb (truthy token)
     then ret (json 400 (err "Email and token are required"))
     else
       let* user := await env Call.User_findOne (User_findOne email) in
       match user with
       | None => ret (json 404 (err "User not found"))
       | Some user =>
           if User.email_verified user
           then ret (json 200 (msg "Email already verified"))
           else if strict_ne (User.verification_token user) (default "" token)
           then ret (json 400 (err "Invalid verification token"))
           else
             let now := clock env in
             if date_gt now (User.verification_token_expiry user)
             then ret (json 400 (err "Verification token has expired"))
             else
               let* _ := await env Call.User_save
                           (User_save env (User.id user) User.set_verified) in
               ret (json 200 (msg "Email verified successfully"))
       end)
    (λ error, ret (json 500 (err "Failed to verify email"))).

(** GET /v1/user/self *)
Definition get_user_self (req_user : User.t) : M Response :=
  try_catch
    (ret (json 200 (User.toJSON req_user)))
    (λ error, ret (end_ 400)).

(** GET /v1/user/:userId *)
Definition get_user (env : Env) (req_user : User.t) (userId : string) : M Response :=
  try_catch
    (if negb (isValidUUID userId) then ret (end_ 400)
     else
       let* user := await env Call.User_findByPk (User_findByPk userId) in
       match user with
       | None => ret (end_ 404)
       | Some _ =>
           if negb (String.eqb (User.id req_user) userId) then ret (end_ 403)
           else ret (json 200 (User.toJSON req_user))
       end)
    (λ error, ret (end_ 400)).

(** PUT /v1/user/:userId *)
Definition put_user (env : Env) (req_user : User.t) (userId : string) (body : UserBody)
    : M Response :=
  try_catch
    (if negb (isValidUUID userId) then ret (end_ 400)
     else
       let* user := await env Call.User_findByPk (User_findByPk userId) in
       match user with
       | None => ret (end_ 404)
       | Some _ =>
           if negb (String.eqb (User.id req_user) userId) then ret (end_ 403)
           else
             let validationErrors := validateUserUpdate body in
             if nonempty validationErrors then ret (json 400 (errs validationErrors))
             else
               let first_name := b_first_name body in
               let last_name := b_last_name body in
               let password := b_password body in
               if negb (truthy first_name) || negb (truthy last_name) || negb (truthy password)
               then ret (end_ 400)
               else
                 let assign :=
                   User.set_names_password
                     (default "" first_name) (default "" last_name)
                     (hashSync (default "" password) (genSalt env)) in
                 let* _ := await env Call.User_save
                             (User_save env (User.id req_user) assign) in
                 ret (end_ 204)
       end)
    (λ error, ret (end_ 400)).

(** *** routes/product.js *)

(** GET /v1/product/:productId *)
Definition get_product (env : Env) (req_user : User.t) (productId : string) : M Response :=
  try_catch
    (let* product := await env Call.Product_findByPk (Product_findByPk productId) in
     match product with
     | None => ret (end_ 404)
     | Some product =>
         if negb (String.eqb (Product.owner_user_id product) (User.id req_user))
         then ret (end_ 403)
         else ret (json 200 (Product.get productId product))
     end)
    (λ error, ret (end_ 400)).

(** The column after [product.x = x] and [save()]: an [undefined]
    value is left out of the UPDATE, so the column keeps what it had.
    It is also what [if (x !== undefined) product.x = x] leaves. *)
Definition if_defined {A} (x old : option A) : option A :=
  match x with
  | Some _ => x
  | None => old
  end.

(** The five assignments of the full update, as [save()] writes them. *)
Definition assign_all (body : ProductBody) (p : Product.t) : Product.t :=
  Product.mk (if_defined (b_name body) (Product.name p))
             (if_defined (b_description body) (Product.description p))
             (if_defined (b_sku body) (Product.sku p))
             (if_defined (b_manufacturer body) (Product.manufacturer p))
             (if_defined (b_quantity body) (Product.quantity p))
             (Product.owner_user_id p).

(** PUT /v1/product/:productId *)
Definition put_product (env : Env) (req_user : User.t) (productId : string)
    (body : ProductBody) : M Response :=
  try_catch
    (let* product := await env Call.Product_findByPk (Product_findByPk productId) in
     match product with
     | None => ret (end_ 404)
     | Some product =>
         if negb (String.eqb (Product.owner_user_id product) (User.id req_user))
         then ret (end_ 403)
         else
           let validationErrors := validateProductUpdate body in
           if nonempty validationErrors then ret (json 400 (errs validationErrors))
           else
             let* _ := await env Call.Product_save
                         (Product_save productId (assign_all body)) in
             ret (end_ 204)
     end)
    (λ error, ret (end_ 400)).

(** The five guarded assignments of the partial update. *)
Definition assign_defined (body : ProductBody) (p : Product.t) : Product.t :=
  Product.mk (if_defined (b_name body) (Product.name p))
             (if_defined (b_description body) (Product.description p))
             (if_defined (b_sku body) (Product.sku p))
             (if_defined (b_manufacturer body) (Product.manufacturer p))
             (if_defined (b_quantity body) (Product.quantity p))
             (Product.owner_user_id p).

(** [allowedFields.some(field => req.body.hasOwnProperty(field))] *)
Definition hasValidField (body : ProductBody) : bool :=
  bool_decide (is_Some (b_name body)) || bool_decide (is_Some (b_description body))
  || bool_decide (is_Some (b_sku body)) || bool_decide (is_Some (b_manufacturer body))
  || bool_decide (is_Some (b_quantity body)).

(** PATCH /v1/product/:productId *)
Definition patch_product (env : Env) (req_user : User.t) (productId : string)
    (body : ProductBody) : M Response :=
  try_catch
    (let* product := await env Call.Product_findByPk (Product_findByPk productId) in
     match product with
     | None => ret (end_ 404)
     | Some product =>
         if negb (String.eqb (Product.owner_user_id product) (User.id req_user))
         then ret (end_ 403)
         else
           let validationErrors := validateProductPatch body in
           if nonempty validationErrors then ret (json 400 (errs validationErrors))
           else if negb (hasValidField body) then ret (end_ 400)
           else
             let* _ := await env Call.Product_save
                         (Product_save productId (assign_defined body)) in
             ret (end_ 204)
     end)
    (λ error, ret (end_ 400)).

(** DELETE /v1/product/:productId *)
Definition delete_product (env : Env) (req_user : User.t) (productId : string) : M Response :=
  try_catch
    (let* product := await env Call.Product_findByPk (Product_findByPk productId) in
     match product with
     | None => ret (end_ 404)
     | Some product =>
         if negb (String.eqb (Product.owner_user_id product) (User.id req_user))
         then ret (end_ 403)
         else
           let* _ := await env Call.Product_destroy (Product_destroy productId) in
           ret (end_ 204)
     end)
    (λ error, ret (end_ 400)).

(** *** routes/image.js *)

Definition no_permission : JObject := err "Product not found or you do not have permission".

(** POST /v1/product/:productId/image *)
Definition post_image (env : Env) (req_user : User.t) (productId : string)
    (file : option File) : M Response :=
  try_catch
    (let userId := User.id req_user in
     match file with
     | None => ret (json 400 (err "No image file provided"))
     | Some file =>
         let* product := await env Call.Product_findOne (Product_findOne productId userId) in
         match product with
         | None => ret (json 403 no_permission)
         | Some _ =>
             let* up := uploadImageToS3 env (buffer file) (originalname file) userId productId in
             let fileName := up.1 in
             let s3Path := up.2 in
             let* image := await env Call.Image_create
                             (Image_create env productId fileName s3Path) in
             ret (json 201 (Image.fields image.1 image.2))
         end
     end)
    (λ error, ret (json 500 (err "Failed to upload image"))).

(** GET /v1/product/:productId/image/:imageId *)
Definition get_image (env : Env) (req_user : User.t) (productId imageId : string)
    : M Response :=
  try_catch
    (let userId := User.id req_user in
     let* product := await env Call.Product_findOne (Product_findOne productId userId) in
     match product with
     | None => ret (json 403 no_permission)
     | Some _ =>
         let* image := await env Call.Image_findOne (Image_findOne imageId productId) in
         match image with
         | None => ret (json 404 (err "Image not found"))
         | Some image => ret (json 200 (Image.fields imageId image))
         end
     end)
    (λ error, ret (json 500 (err "Failed to retrieve image"))).

(** GET /v1/product/:productId/image *)
Definition get_images (env : Env) (req_user : User.t) (productId : string) : M Response :=
  try_catch
    (let userId := User.id req_user in
     let* product := await env Call.Product_findOne (Product_findOne productId userId) in
     match product with
     | None => ret (json 403 no_permission)
     | Some _ =>
         let* images := await env Call.Image_findAll (Image_findAll productId) in
         ret (json_list 200 ((λ i, Image.fields i.1 i.2) <$> images))
     end)
    (λ error, ret (json 500 (err "Failed to retrieve images"))).

(** DELETE /v1/product/:productId/image/:imageId *)
Definition delete_image (env : Env) (req_user : User.t) (productId imageId : string)
    : M Response :=
  try_catch
    (let userId := User.id req_user in
     let* product := await env Call.Product_findOne (Product_findOne productId userId) in
     match product with
     | None => ret (json 403 no_permission)
     | Some _ =>
         let* image := await env Call.Image_findOne (Image_findOne imageId productId) in
         match image with
         | None => ret (json 404 (err "Image not found"))
         | Some image =>
             (* Delete from S3 first *)
             let* _ := deleteImageFromS3 env (Image.s3_bucket_path image) in
             (* Delete from database *)
             let* _ := await env Call.Image_destroy (Image_destroy imageId) in
             ret (end_ 204)
         end
     end)
    (λ error, ret (json 500 (err "Failed to delete image"))).

(** *** routes/health.js *)

Definition no_cache : gmap string string :=
  <["Cache-Control" := "no-cache, no-store, must-revalidate"]>
  (<["Pragma" := "no-cache"]>
  (<["X-Content-Type-Options" := "nosniff"]> ∅)).

(** [req.body && Object.keys(req.body).length > 0] *)
Definition has_payload (req_body : option JObject) : bool :=
  match req_body with
  | Some o => nonempty (map_to_list o).*1
  | None => false
  end.

(** Modelled from the spec: models/HealthCheck.js is not part of the
    sources at hand; [HealthCheck.create({ check_datetime })] is the
    persistence write of the health check and adds one row holding the
    check_datetime. *)
Definition HealthCheck_create (check_datetime : Z) : World → (Exn + unit) * World :=
  exec (λ w, with_health_checks (health_checks w ++ [check_datetime])%list w).

(** router.get('/healthz', ...) *)
Definition get_healthz (env : Env) (req_body : option JObject) : M Response :=
  try_catch
    (if has_payload req_body then ret (mkResponse 400 no_cache NoBody)
     else
       let* _ := await env Call.HealthCheck_create (HealthCheck_create (clock env)) in
       ret (mkResponse 200 no_cache NoBody))
    (λ error, ret (mkResponse 503 no_cache NoBody)).

(** router.all('/healthz', ...) *)
Definition all_healthz : M Response :=
  ret (mkResponse 405 no_cache NoBody).

(** How a route was registered on the router. *)
Inductive Verb := router_get | router_all.

(** Express: a route registered with [get] and without a [head]
    handler also answers HEAD requests; [all] answers every method. *)
Definition handles_method (v : Verb) (m : Method) : bool :=
  match v, m with
  | router_all, _ => true
  | router_get, (GET | HEAD) => true
  | router_get, _ => false
  end.

(** The two routes of /healthz in registration order; the first one
    that handles the method answers.  The last line is the catch-all
    of app.js.  [req_body] is [req.body] as the body parser mounted in
    app.js leaves it; a request the parser answers by itself (a body
    it cannot parse) does not reach the router. *)
Definition healthz (env : Env) (method : Method) (req_body : option JObject) : M Response :=
  match List.find (λ r, handles_method r.1 method)
                  [(router_get, get_healthz env req_body); (router_all, all_healthz)] with
  | Some r => r.2
  | None => ret (end_ 404)
  end.

(** *** The application as a transition system *)

Inductive Request :=
| POST_user (body : UserBody)
| GET_user_verify (email token : option string)
| GET_user_self (req_user : User.t)
| GET_user (req_user : User.t) (userId : string)
| PUT_user (req_user : User.t) (userId : string) (body : UserBody)
| GET_product (req_user : User.t) (productId : string)
| PUT_product (req_user : User.t) (productId : string) (body : ProductBody)
| PATCH_product (req_user : User.t) (productId : string) (body : ProductBody)
| DELETE_product (req_user : User.t) (productId : string)
| POST_image (req_user : User.t) (productId : string) (file : option File)
| GET_image (req_user : User.t) (productId imageId : string)
| GET_images (req_user : User.t) (productId : string)
| DELETE_image (req_user : User.t) (productId imageId : string)
| HEALTHZ (method : Method) (req_body : option JObject).

Definition handler (env : Env) (req : Request) : M Response :=
  match req with
  | POST_user body => post_user env body
  | GET_user_verify email token => get_user_verify env email token
  | GET_user_self u => get_user_self u
  | GET_user u userId => get_user env u userId
  | PUT_user u userId body => put_user env u userId body
  | GET_product u productId => get_product env u productId
  | PUT_product u productId body => put_product env u productId body
  | PATCH_product u productId body => patch_product env u productId body
  | DELETE_product u productId => delete_product env u productId
  | POST_image u productId file => post_image env u productId file
  | GET_image u productId imageId => get_image env u productId imageId
  | GET_images u productId => get_images env u productId
  | DELETE_image u productId imageId => delete_image env u productId imageId
  | HEALTHZ method req_body => healthz env method req_body
  end.

Definition handle (env : Env) (req : Request) (w : World) : Response * Sys :=
  run (handler env req) w.

(** *** routes/product.js, the collection routes *)

(** The two collection routes await one collaborator call each; its
    outcome is an argument of the handler: [Some error] when the call
    rejects. *)

Variable validateProductCreate : ProductBody → list string.

(** [Product.findAll({ where: { owner_user_id: req.user.id } })] *)
Definition Product_findAll (owner : string) (w : World) : list (string * Product.t) :=
  map_to_list (filter (λ kv, Product.owner_user_id kv.2 = owner) (products w)).

(** Modelled from the spec: models/Product.js is not part of the
    sources at hand.  [Product.create({...})] stores a new row under a
    fresh primary key; the persistence collaborator guarantees the
    uniqueness of the primary key and of the stock-keeping code, so a
    taken key or a taken sku makes the call reject. *)
Definition Product_create (env : Env) (name description sku manufacturer : option string)
    (quantity : option Z) (owner : string) (w : World)
    : (Exn + string * Product.t) * World :=
  let taken :=
    bool_decide (is_Some (products w !! pk_uuid env))
    || bool_decide (is_Some sku)
       && bool_decide (Exists (λ kv, Product.sku kv.2 = sku) (map_to_list (products w))) in
  if taken then (inl (mkExn "SequelizeUniqueConstraintError" "Validation error"), w)
  else
    let product := Product.mk name description sku manufacturer quantity owner in
    (inr (pk_uuid env, product), with_products (<[pk_uuid env := product]> (products w)) w).

(** GET /v1/product *)
Definition get_products (findAll_rejects : option Exn) (req_user : User.t) (w : World)
    : Response * World :=
  match findAll_rejects with
  | None =>
      let products := Product_findAll (User.id req_user) w in
      (json_list 200 ((λ kv, Product.get kv.1 kv.2) <$> products), w)
  | Some error => (end_ 400, w)
  end.

(** POST /v1/product *)
Definition post_product (create_rejects : option Exn) (env : Env) (req_user : User.t)
    (body : ProductBody) (w : World) : Response * World :=
  let validationErrors := validateProductCreate body in
  if nonempty validationErrors then (json 400 (errs validationErrors), w)
  else
    match create_rejects with
    | Some error => (json 400 (err "Failed to create product"), w)
    | None =>
        match Product_create env (b_name body) (b_description body) (b_sku body)
                             (b_manufacturer body) (b_quantity body) (User.id req_user) w with
        | (inr product, w') => (json 201 (Product.get product.1 product.2), w')
        | (inl error, w') => (json 400 (err "Failed to create product"), w')
        end
    end.

(** ** Properties *)

(** *** Vocabulary of the statements *)

(** The three fields a caller must never see. *)
Definition secret_keys : list string :=
  ["password"; "verification_token"; "verification_token_expiry"].

Definition omits_secrets (o : JObject) : Prop :=
  Forall (λ k, o !! k = None) secret_keys.

Definition body_omits_secrets (b : Body) : Prop :=
  match b with
  | NoBody => True
  | Obj o => omits_secrets o
  | Arr os => Forall omits_secrets os
  end.

(** The bodies the user routes can send. *)
Inductive user_route_body : Body → Prop :=
| urb_end : user_route_body NoBody
| urb_err m : user_route_body (Obj (err m))
| urb_errs l : user_route_body (Obj (errs l))
| urb_msg m : user_route_body (Obj (msg m))
| urb_user u : user_route_body (Obj (User.toJSON u)).




(** The row of [u] after a successful verification at time [now]. *)
Definition verified_row (now : Z) (u : User.t) : User.t :=
  User.beforeUpdate now (User.set_verified u).

(** The verification state of an identity. *)
Definition verification_fields (u : User.t) : string * bool * option string * option Z :=
  (User.id u, User.email_verified u, User.verification_token u,
   User.verification_token_expiry u).

(** verified implies no token; token and expiry are null together. *)
Definition user_ok (u : User.t) : Prop :=
  (User.email_verified u = true → User.verification_token u = None)
  ∧ (User.verification_token u = None ↔ User.verification_token_expiry u = None).

(** The two requests that write the verification state. *)
Definition writes_verification (req : Request) : bool :=
  match req with
  | POST_user _ | GET_user_verify _ _ => true
  | _ => false
  end.

(** The identity a registration stores. *)
Definition registered_row (env : Env) (fn ln pw un : string) : User.t :=
  User.mk (pk_uuid env) fn ln (hashSync pw (genSalt env)) un (clock env) (clock env)
          false (Some (uuidv4 env)) (Some (clock env + 60 * 1000)%Z).

(** The notification publish fails: no topic is configured, or the
    publish call rejects. *)
Definition publish_fails (env : Env) : Prop :=
  truthy (SNS_TOPIC_ARN env) = false ∨ is_Some (throws env Call.SNS_Publish).

(** *** Proof automation *)

(** JSON objects stay folded while a handler is evaluated. *)
Arguments User.toJSON : simpl never.
Arguments Product.get : simpl never.
Arguments Image.fields : simpl never.
Arguments err : simpl never.
Arguments errs : simpl never.
Arguments msg : simpl never.
Arguments no_permission : simpl never.
Arguments no_cache : simpl never.
(** Tests are settled as a whole, by hypothesis or by cases. *)
Arguments isValidUUID : simpl never.
Arguments truthy : simpl never.
Arguments nonempty : simpl never.
Arguments strict_ne : simpl never.
Arguments date_gt : simpl never.
Arguments hasValidField : simpl never.
Arguments has_payload : simpl never.

Ltac unfold_monad :=
  unfold try_catch, bind, await, ret, throw, query, exec in *.

Ltac unfold_routes :=
  unfold post_user, get_user_verify, get_user_self, get_user, put_user,
    get_product, put_product, patch_product, delete_product,
    post_image, get_image, get_images, delete_image,
    healthz, get_healthz, all_healthz,
    uploadImageToS3, deleteImageFromS3, publishUserRegistration,
    User_findOne, User_findByPk, User_create, User_save,
    Product_findByPk, Product_findOne, Product_save, Product_destroy,
    Image_findOne, Image_findAll, Image_create, Image_destroy,
    HealthCheck_create in *.

Ltac evaluate :=
  unfold handle, run, handler in *; cbn in *; unfold_routes; unfold_monad; cbn in *.

Ltac app_head t :=
  lazymatch t with
  | ?f _ => app_head f
  | _ => t
  end.

(** The test a stuck computation is waiting for: the scrutinee of its
    head match, followed through nested matches and boolean connectives. *)
Ltac head_scrutinee t :=
  lazymatch t with
  | negb ?x => head_scrutinee x
  | ?x || _ => head_scrutinee x
  | ?x && _ => head_scrutinee x
  | _ =>
      let h := app_head t in
      lazymatch h with
      | match ?x with _ => _ end => head_scrutinee x
      | _ => t
      end
  end.

(** One step of the handler in [E : computation = result]: the pending
    test is settled by a hypothesis when there is one, by cases otherwise. *)
Ltac step_in E :=
  lazymatch type of E with
  | ?t = _ =>
      let h := app_head t in
      lazymatch h with
      | match _ with _ => _ end =>
          let x := head_scrutinee t in
          first [ match goal with H : x = _ |- _ => rewrite H in E end
                | destruct x eqn:? ];
          cbn in E
      end
  end.

(** Runs the first handler call of the goal along every path the
    hypotheses leave open. *)
Ltac run_handler :=
  lazymatch goal with
  | |- context [handle ?env ?req ?w] =>
      let E := fresh "E" in
      destruct (handle env req w) as [? ?] eqn:E;
      evaluate; repeat step_in E;
      injection E as ? ?; subst; cbn
  end.


(** The same steps for a handler run outside [handle]. *)
Ltac run_route :=
  lazymatch goal with
  | |- context [run ?h ?w] =>
      let E := fresh "E" in
      destruct (run h w) as [? ?] eqn:E;
      evaluate; repeat step_in E;
      injection E as ? ?; subst; cbn
  end.

Ltac user_body :=
  lazymatch goal with
  | |- user_route_body NoBody => apply urb_end
  | |- user_route_body (Obj (err _)) => apply urb_err
  | |- user_route_body (Obj (errs _)) => apply urb_errs
  | |- user_route_body (Obj (msg _)) => apply urb_msg
  | |- user_route_body (Obj (User.toJSON _)) => apply urb_user
  end.

(** *** Serialisation *)

Lemma toJSON_omits_secrets (u : User.t) : omits_secrets (User.toJSON u).
Proof.
  unfold omits_secrets, secret_keys, User.toJSON.
  repeat apply Forall_cons_2; [| | | apply Forall_nil_2].
  - rewrite !lookup_delete_ne by done. apply lookup_delete_eq.
  - rewrite lookup_delete_ne by done. apply lookup_delete_eq.
  - apply lookup_delete_eq.
Qed.

Lemma singleton_omits_secrets (k : string) (v : JValue) :
  Forall (λ s, s ≠ k) secret_keys → omits_secrets ({[ k := v ]} : JObject).
Proof.
  unfold omits_secrets. intros H. eapply Forall_impl; [exact H |].
  intros s Hs. cbn. apply lookup_singleton_ne. congruence.
Qed.

Lemma user_route_body_omits_secrets (b : Body) :
  user_route_body b → body_omits_secrets b.
Proof.
  destruct 1; cbn; [done | | | | apply toJSON_omits_secrets];
    apply singleton_omits_secrets; repeat constructor; discriminate.
Qed.

Lemma post_user_body (env : Env) (b : UserBody) (w : World) :
  user_route_body (body (handle env (POST_user b) w).1).
Proof. run_handler; user_body. Qed.

Lemma get_user_self_body (env : Env) (u : User.t) (w : World) :
  (handle env (GET_user_self u) w).1 = json 200 (User.toJSON u).
Proof. reflexivity. Qed.

Lemma get_user_body (env : Env) (u : User.t) (userId : string) (w : World) :
  user_route_body (body (handle env (GET_user u userId) w).1).
Proof. run_handler; user_body. Qed.

Lemma post_user_created (env : Env) (b : UserBody) (w : World) :
  status (handle env (POST_user b) w).1 = 201 →
  ∃ u, body (handle env (POST_user b) w).1 = Obj (User.toJSON u)
       ∧ users (store (handle env (POST_user b) w).2) = (users w ++ [u])%list.
Proof.
  run_handler; intros Hst; try discriminate Hst;
    eexists; split; reflexivity.
Qed.

Lemma get_user_found (env : Env) (u : User.t) (userId : string) (w : World) :
  status (handle env (GET_user u userId) w).1 = 200 →
  body (handle env (GET_user u userId) w).1 = Obj (User.toJSON u).
Proof.
  run_handler; intros Hst; try discriminate Hst; reflexivity.
Qed.

(** C6.  Whatever the three routes that return an identity answer
    (POST /v1/user, GET /v1/user/self, GET /v1/user/:userId), the body
    has no password, verification_token or verification_token_expiry
    field; on success the body is exactly the toJSON of the identity. *)
Theorem identity_responses_omit_secrets :
  (∀ u, omits_secrets (User.toJSON u)) ∧
  ∀ env w,
    (∀ b, let r := handle env (POST_user b) w in
          body_omits_secrets (body r.1) ∧
          (status r.1 = 201 →
           ∃ u, body r.1 = Obj (User.toJSON u) ∧ users (store r.2) = (users w ++ [u])%list))
    ∧ (∀ u, (handle env (GET_user_self u) w).1 = json 200 (User.toJSON u)
            ∧ body_omits_secrets (body (handle env (GET_user_self u) w).1))
    ∧ (∀ u userId, let r := handle env (GET_user u userId) w in
          body_omits_secrets (body r.1) ∧
          (status r.1 = 200 → body r.1 = Obj (User.toJSON u))).
Proof.
  split; [apply toJSON_omits_secrets |].
  intros env w. split; [| split].
  - intros b r. split.
    + apply user_route_body_omits_secrets, post_user_body.
    + apply post_user_created.
  - intros u. split; [reflexivity |]. apply toJSON_omits_secrets.
  - intros u userId r. split.
    + apply user_route_body_omits_secrets, get_user_body.
    + apply get_user_found.
Qed.

(** *** isValidUUID decides the 8-4-4-4-12 shape *)

Lemma append_empty_r (s : string) : s ++ "" = s.
Proof.
  induction s as [|c s IH]; [reflexivity |].
  change (String c s ++ "") with (String c (s ++ "")). by rewrite IH.
Qed.

Lemma eat_hex_app (n : nat) (a r : string) :
  hex_group n a → eat_hex n (a ++ r) = Some r.
Proof.
  revert a. induction n as [|n IH]; intros a [Hlen Hhex].
  - destruct a; [reflexivity | discriminate].
  - destruct a as [|c a]; [discriminate |].
    change (String c a ++ r) with (String c (a ++ r)).
    cbn [eat_hex all_hex String.length] in *.
    apply andb_true_iff in Hhex as [-> Ha].
    apply IH. split; [congruence | done].
Qed.

Lemma eat_hex_inv (n : nat) (s r : string) :
  eat_hex n s = Some r → ∃ a, s = a ++ r ∧ hex_group n a.
Proof.
  revert s. induction n as [|n IH]; intros s H.
  - exists "". cbn [eat_hex] in H. injection H as ->. by split.
  - destruct s as [|c s]; [discriminate |]. cbn [eat_hex] in H.
    destruct (is_hex c) eqn:Hc; [| discriminate].
    destruct (IH _ H) as (a & -> & Hlen & Hhex).
    exists (String c a). split; [reflexivity |].
    split; cbn [all_hex String.length]; [congruence |]. by rewrite Hc.
Qed.

Lemma eat_lit_inv (c : ascii) (p : list Atom) (s : string) :
  regex_test (Lit c :: p) s = true → ∃ s', s = String c s' ∧ regex_test p s' = true.
Proof.
  destruct s as [|c' s']; [discriminate |]. cbn [regex_test].
  destruct (Ascii.eqb_spec c c') as [->|]; [eauto | discriminate].
Qed.

Lemma eat_hex_step (n : nat) (p : list Atom) (s : string) :
  regex_test (Hex n :: p) s = true →
  ∃ a r, s = a ++ r ∧ hex_group n a ∧ regex_test p r = true.
Proof.
  cbn [regex_test]. destruct (eat_hex n s) as [r|] eqn:H; [| discriminate].
  intros Hr. apply eat_hex_inv in H as (a & -> & Ha). eauto.
Qed.

Lemma regex_hex_app (n : nat) (p : list Atom) (a r : string) :
  hex_group n a → regex_test (Hex n :: p) (a ++ r) = regex_test p r.
Proof. intros Ha. cbn [regex_test]. by rewrite eat_hex_app. Qed.

Lemma regex_lit (c : ascii) (p : list Atom) (s : string) :
  regex_test (Lit c :: p) (String c s) = regex_test p s.
Proof. cbn [regex_test]. by rewrite Ascii.eqb_refl. Qed.

Lemma isValidUUID_spec (s : string) : isValidUUID s = true ↔ well_formed_uuid s.
Proof.
  unfold isValidUUID, uuidRegex, well_formed_uuid. split.
  - intros H.
    apply eat_hex_step in H as (a & ? & -> & Ha & H).
    apply eat_lit_inv in H as (? & -> & H).
    apply eat_hex_step in H as (b & ? & -> & Hb & H).
    apply eat_lit_inv in H as (? & -> & H).
    apply eat_hex_step in H as (c & ? & -> & Hc & H).
    apply eat_lit_inv in H as (? & -> & H).
    apply eat_hex_step in H as (d & ? & -> & Hd & H).
    apply eat_lit_inv in H as (? & -> & H).
    apply eat_hex_step in H as (e & r & -> & He & H).
    destruct r; [| discriminate].
    exists a, b, c, d, e. split; [| done].
    rewrite append_empty_r. reflexivity.
  - intros (a & b & c & d & e & -> & Ha & Hb & Hc & Hd & He).
    rewrite <- (append_empty_r e).
    repeat first [ rewrite regex_hex_app by done
                 | change ("-" ++ ?x) with (String "-" x); rewrite regex_lit ].
    reflexivity.
Qed.

Lemma isValidUUID_false (s : string) : ¬ well_formed_uuid s → isValidUUID s = false.
Proof.
  intros H. destruct (isValidUUID s) eqn:E; [| done].
  by apply isValidUUID_spec in E.
Qed.

(** C10.  When the userId of GET or PUT /v1/user/:userId is not a
    well-formed UUID the handler answers 400 with an empty body, the
    world is unchanged and the journal is empty: no call reached the
    database. *)
Theorem malformed_user_id_rejected_before_any_lookup
    (env : Env) (req_user : User.t) (userId : string) (b : UserBody) (w : World) :
  ¬ well_formed_uuid userId →
  handle env (GET_user req_user userId) w = (end_ 400, mkSys w [])
  ∧ handle env (PUT_user req_user userId b) w = (end_ 400, mkSys w []).
Proof.
  intros H%isValidUUID_false. split; run_handler; reflexivity.
Qed.

(** *** The access guard of the product routes *)


(** *** The access guard of the image routes *)


(** *** Email verification *)

Lemma truthy_Some (s : string) : s ≠ "" → truthy (Some s) = true.
Proof. intros H. unfold truthy. by apply negb_true_iff, String.eqb_neq. Qed.

Lemma strict_ne_same (s : string) : strict_ne (Some s) s = false.
Proof. unfold strict_ne. by rewrite String.eqb_refl. Qed.

Lemma find_map_stable {A} (p : A → bool) (f : A → A) (l : list A) :
  (∀ x, p (f x) = p x) → List.find p (List.map f l) = f <$> List.find p l.
Proof.
  intros Hp. induction l as [|x l IH]; [reflexivity |].
  cbn. rewrite Hp. by destruct (p x).
Qed.

(** C3.  For an unverified identity whose stored token is the one
    presented: strictly after the expiry instant the check answers 400
    "Verification token has expired" and changes nothing; at any
    instant up to and including the expiry it answers 200 and the
    identity is stored as verified, token and expiry cleared. *)
Theorem verification_expiry_is_strict
    (env : Env) (email token : string) (u : User.t) (e : Z) (w : World) :
  email ≠ "" → token ≠ "" →
  throws env Call.User_findOne = None →
  List.find (by_username email) (users w) = Some u →
  User.email_verified u = false →
  User.verification_token u = Some token →
  User.verification_token_expiry u = Some e →
  let r := handle env (GET_user_verify (Some email) (Some token)) w in
  ((e < clock env)%Z →
     r = (json 400 (err "Verification token has expired"), mkSys w [Call.User_findOne]))
  ∧ ((clock env ≤ e)%Z → throws env Call.User_save = None →
     r.1 = json 200 (msg "Email verified successfully")
     ∧ calls r.2 = [Call.User_findOne; Call.User_save]
     ∧ List.find (by_username email) (users (store r.2)) = Some (verified_row (clock env) u)
     ∧ User.email_verified (verified_row (clock env) u) = true
     ∧ User.verification_token (verified_row (clock env) u) = None
     ∧ User.verification_token_expiry (verified_row (clock env) u) = None).
Proof.
  intros Hemail%truthy_Some Htoken%truthy_Some Hfind Hu Hver Htok Hexp r.
  assert (Hne : strict_ne (User.verification_token u) token = false)
    by (rewrite Htok; apply strict_ne_same).
  split.
  - intros Hlt.
    assert (Hgt : date_gt (clock env) (User.verification_token_expiry u) = true)
      by (rewrite Hexp; unfold date_gt; lia).
    subst r. run_handler. reflexivity.
  - intros Hle Hsave.
    assert (Hgt : date_gt (clock env) (User.verification_token_expiry u) = false)
      by (rewrite Hexp; unfold date_gt; lia).
    subst r. run_handler. repeat split.
    rewrite find_map_stable.
    + rewrite Hu. cbn. unfold by_id. by rewrite String.eqb_refl.
    + intros x. unfold by_username. by destruct (by_id (User.id u) x).
Qed.

(** C4.  For an identity that is already verified the check answers
    200 "Email already verified" whatever token is presented, changes
    nothing, and does so again when repeated. *)
Theorem verified_identity_check_is_idempotent
    (env env' : Env) (email token : string) (u : User.t) (w : World) :
  email ≠ "" → token ≠ "" →
  throws env Call.User_findOne = None →
  throws env' Call.User_findOne = None →
  List.find (by_username email) (users w) = Some u →
  User.email_verified u = true →
  let req := GET_user_verify (Some email) (Some token) in
  handle env req w = (json 200 (msg "Email already verified"), mkSys w [Call.User_findOne])
  ∧ handle env' req (store (handle env req w).2) = handle env req w.
Proof.
  intros Hemail%truthy_Some Htoken%truthy_Some Hfind Hfind' Hu Hver req.
  assert (H1 : ∀ env0, throws env0 Call.User_findOne = None →
    handle env0 req w = (json 200 (msg "Email already verified"), mkSys w [Call.User_findOne])).
  { intros env0 H0. subst req. run_handler. reflexivity. }
  split; [by apply H1 |].
  rewrite (H1 env) by done. cbn. by rewrite H1.
Qed.

(** *** The verification state is written by two routes only *)

Lemma Forall_user_ok_fields (l l' : list User.t) :
  verification_fields <$> l' = verification_fields <$> l →
  Forall user_ok l → Forall user_ok l'.
Proof.
  revert l'. induction l as [|u l IH]; intros [|u' l'] Heq Hl; try done.
  cbn in Heq. injection Heq as _ Hv Ht He Hl'. inversion_clear Hl.
  constructor; [| by apply IH].
  unfold user_ok. by rewrite Hv, Ht, He.
Qed.

Lemma fields_map_stable (f : User.t → User.t) (l : list User.t) :
  (∀ u, verification_fields (f u) = verification_fields u) →
  verification_fields <$> List.map f l = verification_fields <$> l.
Proof.
  intros Hf. induction l as [|u l IH]; [reflexivity |].
  cbn. by rewrite Hf, <- IH.
Qed.

Lemma registration_rows (env : Env) (b : UserBody) (w : World) :
  let w' := store (handle env (POST_user b) w).2 in
  users w' = users w
  ∨ ∃ u, users w' = (users w ++ [u])%list
         ∧ User.email_verified u = false
         ∧ User.verification_token u = Some (uuidv4 env)
         ∧ User.verification_token_expiry u = Some (clock env + 60 * 1000)%Z.
Proof.
  cbn zeta. run_handler; first [by left | right; eexists; by repeat split].
Qed.

Lemma verification_rows (env : Env) (email token : option string) (w : World) :
  let w' := store (handle env (GET_user_verify email token) w).2 in
  Forall2 (λ u u', u' = u ∨ verification_fields u' = (User.id u, true, None, None))
          (users w) (users w').
Proof.
  cbn zeta. run_handler;
    try (apply Forall_Forall2_diag, Forall_forall; intros; by left).
  generalize (users w) as l. clear. intros l.
  induction l as [|x l IH]; cbn; constructor; [| done].
  destruct (by_id _ x); [by right | by left].
Qed.

Lemma other_requests_keep_fields (env : Env) (req : Request) (w : World) :
  writes_verification req = false →
  verification_fields <$> users (store (handle env req w).2)
  = verification_fields <$> users w.
Proof.
  destruct req; try discriminate; intros _; run_handler; try reflexivity.
  all: apply fields_map_stable; intros x; by destruct (by_id _ x).
Qed.

Lemma json_msg_inj (n1 n2 : Z) (m1 m2 : string) :
  json n1 (msg m1) = json n2 (msg m2) → m1 = m2.
Proof.
  intros H.
  apply (f_equal (λ r, match body r with Obj o => o !! "message" | _ => None end)) in H.
  unfold json, msg in H. cbn [body] in H.
  rewrite !lookup_singleton_eq in H. congruence.
Qed.

Lemma registration_created_row (env : Env) (b : UserBody) (w : World) :
  let r := handle env (POST_user b) w in
  (status r.1 = 201 →
   ∃ u, users (store r.2) = (users w ++ [u])%list
        ∧ User.email_verified u = false
        ∧ User.verification_token u = Some (uuidv4 env)
        ∧ User.verification_token_expiry u = Some (clock env + 60 * 1000)%Z)
  ∧ (status r.1 ≠ 201 → users (store r.2) = users w).
Proof.
  cbv zeta. run_handler; (split; [intros Hst | intros Hst]);
    first [discriminate Hst | reflexivity | by destruct Hst
          | eexists; by repeat split].
Qed.

Lemma verification_success_row (env : Env) (email token : option string) (w : World) :
  let r := handle env (GET_user_verify email token) w in
  (r.1 = json 200 (msg "Email verified successfully") →
   ∃ un u, email = Some un
           ∧ List.find (by_username un) (users w) = Some u
           ∧ User.email_verified u = false
           ∧ List.find (by_username un) (users (store r.2))
             = Some (verified_row (clock env) u)
           ∧ verification_fields (verified_row (clock env) u) = (User.id u, true, None, None))
  ∧ (r.1 ≠ json 200 (msg "Email verified successfully") → users (store r.2) = users w).
Proof.
  cbv zeta. run_handler; (split; [intros Hr | intros Hr]);
    try reflexivity; try (by destruct Hr).
  all: try (apply (f_equal status) in Hr; cbn in Hr; discriminate Hr).
  - apply json_msg_inj in Hr. discriminate Hr.
  - match goal with
    | Hf : List.find (by_username ?un) (users w) = Some ?u |- _ =>
        exists un, u; repeat split; try assumption;
        rewrite find_map_stable;
        [ rewrite Hf; cbn; unfold by_id; by rewrite String.eqb_refl
        | intros x; unfold by_username; by destruct (by_id (User.id u) x) ]
    end.
Qed.

(** C5.  Every request preserves, for every identity, that verified
    implies no token and that token and expiry are null together.
    A registration answered 201 has added exactly one identity,
    unverified with token and expiry both set, and any other answer has
    added none; a verification check answered "Email verified
    successfully" has stored the identity of that email as verified
    with token and expiry both cleared, and any other answer has
    changed no identity; no other request changes the verification
    state of any identity. *)
Theorem verification_state_invariant :
  (∀ env req w,
     Forall user_ok (users w) → Forall user_ok (users (store (handle env req w).2)))
  ∧ (∀ env b w,
       let w' := store (handle env (POST_user b) w).2 in
       users w' = users w
       ∨ ∃ u, users w' = (users w ++ [u])%list
              ∧ User.email_verified u = false
              ∧ User.verification_token u = Some (uuidv4 env)
              ∧ User.verification_token_expiry u = Some (clock env + 60 * 1000)%Z)
  ∧ (∀ env email token w,
       let w' := store (handle env (GET_user_verify email token) w).2 in
       Forall2 (λ u u', u' = u ∨ verification_fields u' = (User.id u, true, None, None))
               (users w) (users w'))
  ∧ (∀ env req w,
       writes_verification req = false →
       verification_fields <$> users (store (handle env req w).2)
       = verification_fields <$> users w)
  ∧ (∀ env b w,
       let r := handle env (POST_user b) w in
       (status r.1 = 201 →
        ∃ u, users (store r.2) = (users w ++ [u])%list
             ∧ User.email_verified u = false
             ∧ User.verification_token u = Some (uuidv4 env)
             ∧ User.verification_token_expiry u = Some (clock env + 60 * 1000)%Z)
       ∧ (status r.1 ≠ 201 → users (store r.2) = users w))
  ∧ (∀ env email token w,
       let r := handle env (GET_user_verify email token) w in
       (r.1 = json 200 (msg "Email verified successfully") →
        ∃ un u, email = Some un
                ∧ List.find (by_username un) (users w) = Some u
                ∧ User.email_verified u = false
                ∧ List.find (by_username un) (users (store r.2))
                  = Some (verified_row (clock env) u)
                ∧ verification_fields (verified_row (clock env) u)
                  = (User.id u, true, None, None))
       ∧ (r.1 ≠ json 200 (msg "Email verified successfully") →
          users (store r.2) = users w)).
Proof.
  split; [| split; [apply registration_rows |
            split; [apply verification_rows |
            split; [apply other_requests_keep_fields |
            split; [apply registration_created_row | apply verification_success_row]]]]].
  intros env req w Hw.
  destruct (writes_verification req) eqn:Hreq.
  - destruct req; try discriminate.
    + destruct (registration_rows env body0 w) as [-> | (u & -> & Hv & Ht & He)]; [done |].
      apply Forall_app; split; [done |]. repeat constructor.
      * rewrite Hv. discriminate.
      * rewrite Ht. discriminate.
      * rewrite He. discriminate.
    + pose proof (verification_rows env email token w) as H. cbn zeta in H.
      revert Hw. induction H as [|u u' l l' Hu _ IH]; [done |].
      intros Hl. inversion_clear Hl. constructor; [| by apply IH].
      destruct Hu as [-> | [= _ Hv Ht He]]; [done |].
      unfold user_ok. by rewrite Ht, He.
  - eapply Forall_user_ok_fields; [by apply other_requests_keep_fields | done].
Qed.

(** *** Deleting an image: bucket first, then the row *)

(** C7.  For the owner of the product and an image of that product,
    the object is deleted from the bucket before the row is deleted:
    when the bucket delete rejects, the answer is 500, no delete
    reaches the table and the world is unchanged; when it succeeds the
    row delete comes next, and only when both succeed is the answer
    204 with object and row gone. *)
Theorem image_delete_is_bucket_then_row
    (env : Env) (u : User.t) (pid iid : string) (p : Product.t) (i : Image.t) (w : World) :
  throws env Call.Product_findOne = None →
  throws env Call.Image_findOne = None →
  products w !! pid = Some p →
  Product.owner_user_id p = User.id u →
  images w !! iid = Some i →
  Image.product_id i = pid →
  let r := handle env (DELETE_image u pid iid) w in
  let lookups := [Call.Product_findOne; Call.Image_findOne] in
  let deleted := with_bucket (delete (Image.s3_bucket_path i) (bucket w)) w in
  match throws env Call.S3_DeleteObject, throws env Call.Image_destroy with
  | Some _, _ =>
      r = (json 500 (err "Failed to delete image"),
           mkSys w (lookups ++ [Call.S3_DeleteObject])%list)
  | None, Some _ =>
      r = (json 500 (err "Failed to delete image"),
           mkSys deleted (lookups ++ [Call.S3_DeleteObject; Call.Image_destroy])%list)
  | None, None =>
      r = (end_ 204,
           mkSys (with_images (delete iid (images w)) deleted)
                 (lookups ++ [Call.S3_DeleteObject; Call.Image_destroy])%list)
  end.
Proof.
  intros Hpf Hif Hp Hown%String.eqb_eq Hi Hpid%String.eqb_eq r lookups deleted.
  subst r lookups deleted.
  destruct (throws env Call.S3_DeleteObject) eqn:Hs3;
    [| destruct (throws env Call.Image_destroy) eqn:Hdb];
    run_handler; reflexivity.
Qed.

(** *** Registration does not depend on the notification *)

Lemma nonempty_nil {A} (l : list A) : l = [] → nonempty l = false.
Proof. by intros ->. Qed.

Lemma existsb_or_false {A} (p q : A → bool) (l : list A) :
  existsb p l = false → List.find q l = None → existsb (λ x, p x || q x) l = false.
Proof.
  induction l as [|x l IH]; [done |]. cbn.
  destruct (p x); [done |]. destruct (q x); [done |]. cbn. apply IH.
Qed.

(** C8.  For a registration that passes validation, names a new email
    and is accepted by the table, the identity is stored and the answer
    is 201 with its toJSON whatever the notification publish does; when
    the publish fails nothing reaches the topic and the answer is the
    same. *)
Theorem registration_survives_publish_failure
    (env : Env) (b : UserBody) (fn ln pw un : string) (w : World) :
  validateUserCreate b = [] →
  b_first_name b = Some fn → b_last_name b = Some ln →
  b_password b = Some pw → b_username b = Some un →
  throws env Call.User_findOne = None →
  List.find (by_username un) (users w) = None →
  throws env Call.User_create = None →
  isEmail un = true →
  existsb (by_id (pk_uuid env)) (users w) = false →
  let r := handle env (POST_user b) w in
  let user := registered_row env fn ln pw un in
  r.1 = json 201 (User.toJSON user)
  ∧ users (store r.2) = (users w ++ [user])%list
  ∧ (publish_fails env → topic (store r.2) = topic w).
Proof.
  intros Hval%nonempty_nil Hfn Hln Hpw Hun Hfind Hnone Hcreate Hmail Hfresh r user.
  pose proof (existsb_or_false _ _ _ Hfresh Hnone) as Hex.
  subst r user. unfold registered_row.
  run_handler; (split; [reflexivity | split; [reflexivity |]]);
    try reflexivity; intros [Hf | [e He]]; congruence.
Qed.

(** *** /healthz *)

Lemma healthz_get (env : Env) (req_body : option JObject) (w : World) :
  let r := handle env (HEALTHZ GET req_body) w in
  if has_payload req_body
  then r = (mkResponse 400 no_cache NoBody, mkSys w [])
  else match throws env Call.HealthCheck_create with
       | None =>
           r = (mkResponse 200 no_cache NoBody,
                mkSys (with_health_checks (health_checks w ++ [clock env])%list w)
                      [Call.HealthCheck_create])
       | Some _ =>
           r = (mkResponse 503 no_cache NoBody, mkSys w [Call.HealthCheck_create])
       end.
Proof.
  cbn zeta. destruct (has_payload req_body) eqn:Hb;
    [| destruct (throws env Call.HealthCheck_create) eqn:Hc];
    run_handler; reflexivity.
Qed.

Lemma healthz_other_methods (env : Env) (m : Method) (req_body : option JObject) (w : World) :
  m ≠ GET → m ≠ HEAD →
  handle env (HEALTHZ m req_body) w = (mkResponse 405 no_cache NoBody, mkSys w []).
Proof. by destruct m. Qed.

(** Express hands a HEAD request to the route registered with [get]. *)
Lemma healthz_head_is_get (env : Env) (req_body : option JObject) (w : World) :
  handle env (HEALTHZ HEAD req_body) w = handle env (HEALTHZ GET req_body) w.
Proof. reflexivity. Qed.

(** *** Further properties of the serialisation *)

(** X1.  toJSON removes the three secret fields and nothing else: every
    other key reads as in the attribute object, and the keys left are
    the seven public ones. *)
Theorem toJSON_keeps_the_public_fields (u : User.t) :
  (∀ k, User.toJSON u !! k
        = if bool_decide (k ∈ secret_keys) then None else User.get u !! k)
  ∧ dom (User.toJSON u)
    = list_to_set ["id"; "first_name"; "last_name"; "username";
                   "account_created"; "account_updated"; "email_verified"].
Proof.
  split.
  - intros k. unfold User.toJSON, secret_keys. cbv zeta.
    case_bool_decide as Hk.
    + rewrite !elem_of_cons, elem_of_nil in Hk.
      destruct Hk as [-> | [-> | [-> | []]]].
      * rewrite !lookup_delete_ne by done. apply lookup_delete_eq.
      * rewrite lookup_delete_ne by done. apply lookup_delete_eq.
      * apply lookup_delete_eq.
    + rewrite !elem_of_cons, elem_of_nil in Hk.
      rewrite !lookup_delete_ne; [done | | |]; intros ?; subst k; apply Hk; auto.
  - unfold User.toJSON, User.get. cbv zeta.
    rewrite !dom_delete_L, !dom_insert_L, dom_empty_L. cbn [list_to_set].
    apply set_eq. intros k.
    rewrite !elem_of_difference, !elem_of_union, !elem_of_singleton, elem_of_empty.
    split.
    + intros [[[Hk Hp] Ht] He].
      destruct Hk as [->|[->|[->|[->|[->|[->|[->|[->|[->|[->|[]]]]]]]]]]];
        try done; tauto.
    + intros Hk.
      destruct Hk as [->|[->|[->|[->|[->|[->|[->|[]]]]]]]];
        (split; [split; [split |] |]); try discriminate; tauto.
Qed.

(** *** Further properties of isValidUUID *)

Lemma length_append (s t : string) :
  String.length (s ++ t) = (String.length s + String.length t)%nat.
Proof.
  induction s as [|c s IH]; [reflexivity |].
  change (String c s ++ t) with (String c (s ++ t)). cbn. by rewrite IH.
Qed.

Lemma is_hex_lower (c : ascii) : is_hex (lower c) = is_hex c.
Proof. by destruct c as [[] [] [] [] [] [] [] []]. Qed.

Lemma lower_dash (c : ascii) : lower c = lower "-" → c = "-"%char.
Proof. destruct c as [[] [] [] [] [] [] [] []]; vm_compute; congruence. Qed.

Lemma eat_hex_ignoring_case (n : nat) (s t : string) :
  same_ignoring_case s t = true →
  match eat_hex n s, eat_hex n t with
  | Some s', Some t' => same_ignoring_case s' t' = true
  | None, None => True
  | _, _ => False
  end.
Proof.
  revert s t. induction n as [|n IH]; intros s t H; [done |].
  destruct s as [|c s], t as [|d t]; try done. cbn [eat_hex].
  cbn [same_ignoring_case] in H. apply andb_true_iff in H as [Hc H].
  apply Ascii.eqb_eq in Hc.
  rewrite <- (is_hex_lower c), Hc, is_hex_lower.
  destruct (is_hex d); [by apply IH | done].
Qed.

Lemma regex_test_ignoring_case (p : list Atom) (s t : string) :
  Forall (λ a, match a with Lit c => c = "-"%char | Hex _ => True end) p →
  same_ignoring_case s t = true → regex_test p s = regex_test p t.
Proof.
  intros Hp. revert s t. induction Hp as [|a p Ha _ IH]; intros s t H.
  - by destruct s, t.
  - destruct a as [n|c]; cbn [regex_test].
    + pose proof (eat_hex_ignoring_case n s t H) as Hn.
      destruct (eat_hex n s), (eat_hex n t); try done. by apply IH.
    + subst c. destruct s as [|c s], t as [|d t]; try done.
      cbn [same_ignoring_case] in H. apply andb_true_iff in H as [Hc H].
      apply Ascii.eqb_eq in Hc.
      destruct (Ascii.eqb_spec "-" c) as [<-|Hne].
      * symmetry in Hc. apply lower_dash in Hc as ->.
        rewrite Ascii.eqb_refl. by apply IH.
      * destruct (Ascii.eqb_spec "-" d) as [<-|]; [| done].
        apply lower_dash in Hc. congruence.
Qed.

(** X2.  isValidUUID accepts only strings of 36 characters, and its answer
    does not depend on the case of the letters. *)
Theorem isValidUUID_length_and_case :
  (∀ s, isValidUUID s = true → String.length s = 36%nat)
  ∧ (∀ s t, same_ignoring_case s t = true → isValidUUID s = isValidUUID t).
Proof.
  split.
  - intros s (a & b & c & d & e & -> & [Ha _] & [Hb _] & [Hc _] & [Hd _] & [He _])
      %isValidUUID_spec.
    rewrite !length_append, Ha, Hb, Hc, Hd, He. reflexivity.
  - intros s t H. unfold isValidUUID. apply regex_test_ignoring_case; [| done].
    unfold uuidRegex. repeat constructor.
Qed.

(** *** Further properties of /healthz *)

(** X3.  Every answer the two routes of /healthz give, for every method,
    every parsed [req.body] and every state of the database, has
    status 200, 400, 503 or 405, an empty body and the three no-cache
    headers; the only effect on the world is at most one new
    health-check row, written only with a 200 answer to a request
    whose parsed body has no key.  Answers the body parser gives
    before the routes are not among them. *)
Theorem healthz_answers_are_uncacheable
    (env : Env) (m : Method) (req_body : option JObject) (w : World) :
  let r := handle env (HEALTHZ m req_body) w in
  headers r.1 = no_cache ∧ body r.1 = NoBody
  ∧ (status r.1 = 200 ∨ status r.1 = 400 ∨ status r.1 = 503 ∨ status r.1 = 405)
  ∧ (store r.2 = w
     ∨ (status r.1 = 200 ∧ has_payload req_body = false
        ∧ store r.2 = with_health_checks (health_checks w ++ [clock env])%list w)).
Proof.
  cbv zeta. destruct m; run_handler; repeat split; auto 10.
Qed.

(** *** Further properties of the verification check *)

Lemma strict_ne_other (a : option string) (b : string) :
  a ≠ Some b → strict_ne a b = true.
Proof.
  intros H. destruct a as [a|]; [| done]. unfold strict_ne.
  apply negb_true_iff, String.eqb_neq. congruence.
Qed.

(** X4.  Without an email or without a token (absent or empty) the check
    answers 400 and no call reaches the database. *)
Theorem verify_requires_both_parameters
    (env : Env) (email token : option string) (w : World) :
  truthy email && truthy token = false →
  handle env (GET_user_verify email token) w
  = (json 400 (err "Email and token are required"), mkSys w []).
Proof.
  intros H. destruct (truthy email) eqn:He, (truthy token) eqn:Ht;
    try discriminate H; run_handler; reflexivity.
Qed.

(** X5.  An email no identity has is answered 404 after the lookup; nothing
    is written. *)
Theorem verify_unknown_email
    (env : Env) (email token : string) (w : World) :
  email ≠ "" → token ≠ "" →
  throws env Call.User_findOne = None →
  List.find (by_username email) (users w) = None →
  handle env (GET_user_verify (Some email) (Some token)) w
  = (json 404 (err "User not found"), mkSys w [Call.User_findOne]).
Proof.
  intros He%truthy_Some Ht%truthy_Some Hfind Hnone. run_handler. reflexivity.
Qed.

(** X6.  A token that is not the stored one is answered 400 "Invalid
    verification token" at any time, before or after the expiry, and
    the identity stays as it is. *)
Theorem verify_wrong_token
    (env : Env) (email token : string) (u : User.t) (w : World) :
  email ≠ "" → token ≠ "" →
  throws env Call.User_findOne = None →
  List.find (by_username email) (users w) = Some u →
  User.email_verified u = false →
  User.verification_token u ≠ Some token →
  handle env (GET_user_verify (Some email) (Some token)) w
  = (json 400 (err "Invalid verification token"), mkSys w [Call.User_findOne]).
Proof.
  intros He%truthy_Some Ht%truthy_Some Hfind Hu Hver Hne%strict_ne_other.
  run_handler. reflexivity.
Qed.

Lemma verify_success (env : Env) (email token : string) (u : User.t) (e : Z) (w : World) :
  email ≠ "" → token ≠ "" →
  throws env Call.User_findOne = None →
  List.find (by_username email) (users w) = Some u →
  User.email_verified u = false →
  User.verification_token u = Some token →
  User.verification_token_expiry u = Some e →
  (clock env ≤ e)%Z →
  throws env Call.User_save = None →
  handle env (GET_user_verify (Some email) (Some token)) w
  = (json 200 (msg "Email verified successfully"),
     mkSys (with_users
              (List.map (λ x, if by_id (User.id u) x then verified_row (clock env) x else x)
                        (users w)) w)
           [Call.User_findOne; Call.User_save]).
Proof.
  intros He%truthy_Some Ht%truthy_Some Hfind Hu Hver Htok Hexp Hle Hsave.
  assert (Hne : strict_ne (User.verification_token u) token = false)
    by (rewrite Htok; apply strict_ne_same).
  assert (Hgt : date_gt (clock env) (User.verification_token_expiry u) = false)
    by (rewrite Hexp; unfold date_gt; lia).
  run_handler. reflexivity.
Qed.

Lemma find_verified (email : string) (now : Z) (u : User.t) (l : list User.t) :
  List.find (by_username email) l = Some u →
  List.find (by_username email)
            (List.map (λ x, if by_id (User.id u) x then verified_row now x else x) l)
  = Some (verified_row now u).
Proof.
  intros Hu. rewrite find_map_stable.
  - rewrite Hu. cbn. unfold by_id. by rewrite String.eqb_refl.
  - intros x. unfold by_username. by destruct (by_id (User.id u) x).
Qed.

(** X7.  A token verifies once: after a successful check, presenting the
    same token again, at any later time, is answered 200 "Email already
    verified" and writes nothing. *)
Theorem verification_token_is_single_use
    (env env' : Env) (email token : string) (u : User.t) (e : Z) (w : World) :
  email ≠ "" → token ≠ "" →
  throws env Call.User_findOne = None →
  List.find (by_username email) (users w) = Some u →
  User.email_verified u = false →
  User.verification_token u = Some token →
  User.verification_token_expiry u = Some e →
  (clock env ≤ e)%Z →
  throws env Call.User_save = None →
  throws env' Call.User_findOne = None →
  let req := GET_user_verify (Some email) (Some token) in
  let w1 := store (handle env req w).2 in
  handle env' req w1 = (json 200 (msg "Email already verified"), mkSys w1 [Call.User_findOne]).
Proof.
  intros He Ht Hfind Hu Hver Htok Hexp Hle Hsave Hfind' req w1. subst req w1.
  rewrite (verify_success env email token u e w) by done.
  apply truthy_Some in He, Ht.
  pose proof (find_verified email (clock env) u (users w) Hu) as Hv.
  cbn [store snd]. run_handler. reflexivity.
Qed.

(** *** How the table of identities evolves *)

Lemma users_step (env : Env) (req : Request) (w : World) :
  let l := users w in
  let l' := users (store (handle env req w).2) in
  l' = l
  ∨ (∃ pk f, l' = List.map (λ u, if by_id pk u then f u else u) l
             ∧ ∀ u, User.id (f u) = User.id u ∧ User.username (f u) = User.username u
                    ∧ User.account_created (f u) = User.account_created u
                    ∧ (User.email_verified u = true → User.email_verified (f u) = true))
  ∨ (∃ u, l' = (l ++ [u])%list
          ∧ existsb (λ x, by_id (User.id u) x || by_username (User.username u) x) l = false).
Proof.
  cbv zeta. destruct req; run_handler;
    first [ by left
          | right; left; eexists _, _; split; [reflexivity |]; by intros []
          | right; right; eexists; split; [reflexivity | done] ].
Qed.

Lemma existsb_fresh (i n : string) (l : list User.t) :
  existsb (λ x, by_id i x || by_username n x) l = false →
  (i ∉ User.id <$> l) ∧ (n ∉ User.username <$> l).
Proof.
  induction l as [|x l IH]; cbn.
  - intros _. split; apply not_elem_of_nil.
  - intros [[Hi Hn]%orb_false_iff [Hi' Hn']%IH]%orb_false_iff.
    apply String.eqb_neq in Hi, Hn.
    split; apply not_elem_of_cons; split; congruence.
Qed.

(** X8.  No request removes an identity or changes its id, its email or
    its creation date, and no request makes a verified identity
    unverified. *)
Theorem identities_persist
    (env : Env) (req : Request) (w : World) (u : User.t) :
  u ∈ users w →
  ∃ u', u' ∈ users (store (handle env req w).2)
        ∧ User.id u' = User.id u ∧ User.username u' = User.username u
        ∧ User.account_created u' = User.account_created u
        ∧ (User.email_verified u = true → User.email_verified u' = true).
Proof.
  intros Hu.
  destruct (users_step env req w) as [-> | [(pk & f & -> & Hf) | (x & -> & _)]].
  - by exists u.
  - exists (if by_id pk u then f u else u). split.
    + apply list_elem_of_In, in_map_iff. exists u. split; [done |].
      by apply list_elem_of_In.
    + destruct (by_id pk u); [apply Hf | done].
  - exists u. split; [| done]. apply elem_of_app. by left.
Qed.

(** X9.  Emails and ids stay unique: from a table without duplicates no
    request leads to one with duplicates. *)
Theorem identities_stay_unique (env : Env) (req : Request) (w : World) :
  NoDup (User.username <$> users w) →
  NoDup (User.id <$> users w) →
  NoDup (User.username <$> users (store (handle env req w).2))
  ∧ NoDup (User.id <$> users (store (handle env req w).2)).
Proof.
  intros Hn Hi.
  destruct (users_step env req w) as [-> | [(pk & f & -> & Hf) | (x & -> & Hx)]].
  - done.
  - assert (∀ (g : User.t → string),
              (∀ u, g (f u) = g u) →
              g <$> List.map (λ u, if by_id pk u then f u else u) (users w)
              = g <$> users w) as Hmap.
    { intros g Hg. generalize (users w) as l. clear -Hg. intros l.
      induction l as [|y l IH]; [done |].
      cbn. rewrite <- IH. f_equal.
      destruct (by_id pk y); [apply Hg | done]. }
    rewrite !Hmap; [done | intros y; apply Hf | intros y; apply Hf].
  - apply existsb_fresh in Hx as [Hxi Hxn].
    rewrite !fmap_app. cbn.
    split; apply NoDup_app; (split; [done |]); (split; [| apply NoDup_singleton]);
      intros y Hy ->%list_elem_of_singleton; done.
Qed.

(** *** Further properties of the registration *)

(** X10.  A registration for an email that already has an identity is
    answered 400; no row is created and nothing is published. *)
Theorem duplicate_registration_is_rejected
    (env : Env) (b : UserBody) (un : string) (u : User.t) (w : World) :
  validateUserCreate b = [] →
  b_username b = Some un →
  throws env Call.User_findOne = None →
  List.find (by_username un) (users w) = Some u →
  handle env (POST_user b) w
  = (json 400 (err "User with this email already exists"), mkSys w [Call.User_findOne]).
Proof.
  intros Hval%nonempty_nil Hun Hfind Hu. run_handler. reflexivity.
Qed.

(** X11.  A body the validator objects to is answered 400 with the list of
    errors and no call reaches a collaborator. *)
Theorem invalid_registration_is_rejected (env : Env) (b : UserBody) (w : World) :
  validateUserCreate b ≠ [] →
  handle env (POST_user b) w = (json 400 (errs (validateUserCreate b)), mkSys w []).
Proof.
  intros H.
  assert (Hne : nonempty (validateUserCreate b) = true)
    by (by destruct (validateUserCreate b)).
  run_handler. reflexivity.
Qed.

Lemma registration_result (env : Env) (b : UserBody) (fn ln pw un : string) (w : World) :
  validateUserCreate b = [] →
  b_first_name b = Some fn → b_last_name b = Some ln →
  b_password b = Some pw → b_username b = Some un →
  throws env Call.User_findOne = None →
  List.find (by_username un) (users w) = None →
  throws env Call.User_create = None →
  isEmail un = true →
  existsb (by_id (pk_uuid env)) (users w) = false →
  truthy (SNS_TOPIC_ARN env) = true →
  throws env Call.SNS_Publish = None →
  handle env (POST_user b) w
  = (json 201 (User.toJSON (registered_row env fn ln pw un)),
     mkSys (with_topic (topic w ++ [mkSns (Some un) (Some fn) (Some ln) (uuidv4 env)])%list
              (with_users (users w ++ [registered_row env fn ln pw un])%list w))
           [Call.User_findOne; Call.User_create; Call.SNS_Publish]).
Proof.
  intros Hval%nonempty_nil Hfn Hln Hpw Hun Hfind Hnone Hcreate Hmail Hfresh Harn Hpub.
  pose proof (existsb_or_false _ _ _ Hfresh Hnone) as Hex.
  unfold registered_row. run_handler. reflexivity.
Qed.

Lemma find_app_last {A} (p : A → bool) (l : list A) (x : A) :
  List.find p l = None → p x = true → List.find p (l ++ [x])%list = Some x.
Proof.
  intros Hl Hx. induction l as [|y l IH]; cbn in *.
  - by rewrite Hx.
  - destruct (p y); [done | by apply IH].
Qed.

(** X12.  Registration and verification fit together: the token published
    to the topic is the one stored, and presenting it for the new email
    verifies the identity up to and including 60 seconds after the
    registration and is refused as expired after that. *)
Theorem registration_then_verification
    (env env' : Env) (b : UserBody) (fn ln pw un : string) (w : World) :
  validateUserCreate b = [] →
  b_first_name b = Some fn → b_last_name b = Some ln →
  b_password b = Some pw → b_username b = Some un →
  throws env Call.User_findOne = None →
  List.find (by_username un) (users w) = None →
  throws env Call.User_create = None →
  isEmail un = true →
  existsb (by_id (pk_uuid env)) (users w) = false →
  truthy (SNS_TOPIC_ARN env) = true →
  throws env Call.SNS_Publish = None →
  un ≠ "" → uuidv4 env ≠ "" →
  throws env' Call.User_findOne = None →
  throws env' Call.User_save = None →
  let r1 := handle env (POST_user b) w in
  let r2 := handle env' (GET_user_verify (Some un) (Some (uuidv4 env))) (store r1.2) in
  topic (store r1.2) = (topic w ++ [mkSns (Some un) (Some fn) (Some ln) (uuidv4 env)])%list
  ∧ if (clock env' <=? clock env + 60000)%Z
    then r2.1 = json 200 (msg "Email verified successfully")
         ∧ List.find (by_username un) (users (store r2.2))
           = Some (verified_row (clock env') (registered_row env fn ln pw un))
    else r2 = (json 400 (err "Verification token has expired"),
               mkSys (store r1.2) [Call.User_findOne]).
Proof.
  intros Hval Hfn Hln Hpw Hun Hfind Hnone Hcreate Hmail Hfresh Harn Hpub
         Hune Htok Hfind' Hsave' r1 r2.
  subst r1 r2.
  rewrite (registration_result env b fn ln pw un w) by done.
  cbn [store snd fst]. split; [reflexivity |].
  set (row := registered_row env fn ln pw un).
  assert (Hrow : List.find (by_username un) (users w ++ [row])%list = Some row).
  { apply find_app_last; [done |]. unfold by_username. cbn. apply String.eqb_refl. }
  destruct (clock env' <=? clock env + 60000)%Z eqn:Hclock.
  - apply Z.leb_le in Hclock.
    rewrite (verify_success env' un (uuidv4 env) row (clock env + 60000)); try done.
    cbn [fst snd store users with_users].
    split; [reflexivity |]. by apply find_verified.
  - apply Z.leb_gt in Hclock.
    apply truthy_Some in Hune, Htok.
    pose proof (strict_ne_same (uuidv4 env)) as Hsame.
    assert (Hgt : date_gt (clock env') (Some (clock env + 60 * 1000)%Z) = true)
      by (unfold date_gt; lia).
    subst row. unfold registered_row in *. run_handler. reflexivity.
Qed.

(** *** The guard of /v1/user/:userId *)

(** X13.  With a well-formed userId, GET and PUT look the identity up first,
    as a UUID: a key no identity has is 404; when an identity is found
    and the userId is not, character for character, the caller's id,
    the answer is 403, also for the caller's own id spelled in another
    case; nothing is written in either case.  The caller's id as it is
    stored is answered by GET with the toJSON of the caller. *)
Theorem user_guard_existence_then_self
    (env : Env) (req_user : User.t) (userId : string) (b : UserBody) (w : World) :
  well_formed_uuid userId →
  throws env Call.User_findByPk = None →
  match List.find (by_uuid userId) (users w) with
  | None =>
      handle env (GET_user req_user userId) w = (end_ 404, mkSys w [Call.User_findByPk])
      ∧ handle env (PUT_user req_user userId b) w = (end_ 404, mkSys w [Call.User_findByPk])
  | Some _ =>
      if decide (User.id req_user = userId)
      then handle env (GET_user req_user userId) w
           = (json 200 (User.toJSON req_user), mkSys w [Call.User_findByPk])
      else handle env (GET_user req_user userId) w = (end_ 403, mkSys w [Call.User_findByPk])
           ∧ handle env (PUT_user req_user userId b) w
             = (end_ 403, mkSys w [Call.User_findByPk])
  end.
Proof.
  intros Hid%isValidUUID_spec Hfind.
  destruct (List.find (by_uuid userId) (users w)) eqn:Hu.
  - case_decide as Hself.
    + apply String.eqb_eq in Hself. run_handler. reflexivity.
    + apply String.eqb_neq in Hself. split; run_handler; reflexivity.
  - split; run_handler; reflexivity.
Qed.


(** X15.  A PUT on the caller's own id that lacks first_name, last_name or
    password, or gives one of them empty, is answered 400 and writes
    nothing. *)
Theorem put_user_requires_all_fields
    (env : Env) (req_user x : User.t) (userId : string) (b : UserBody) (w : World) :
  well_formed_uuid userId →
  throws env Call.User_findByPk = None →
  List.find (by_uuid userId) (users w) = Some x →
  User.id req_user = userId →
  truthy (b_first_name b) && truthy (b_last_name b) && truthy (b_password b) = false →
  status (handle env (PUT_user req_user userId b) w).1 = 400
  ∧ (handle env (PUT_user req_user userId b) w).2 = mkSys w [Call.User_findByPk].
Proof.
  intros Hid%isValidUUID_spec Hfind Hx Hself%String.eqb_eq Hb.
  destruct (truthy (b_first_name b)) eqn:H1, (truthy (b_last_name b)) eqn:H2,
    (truthy (b_password b)) eqn:H3; try discriminate Hb;
    run_handler; by split.
Qed.

(** *** The collection routes of the products *)

(** X16.  GET /v1/product answers with the caller's products and no others,
    and reads only; when the query rejects the answer is 400. *)
Theorem product_list_is_the_callers_own (u : User.t) (w : World) :
  (∀ error, get_products (Some error) u w = (end_ 400, w))
  ∧ ∃ l, get_products None u w = (json_list 200 l, w)
         ∧ ∀ o, o ∈ l ↔ ∃ pid p, products w !! pid = Some p
                                  ∧ Product.owner_user_id p = User.id u
                                  ∧ o = Product.get pid p.
Proof.
  split; [done |]. eexists. split; [reflexivity |].
  intros o. unfold Product_findAll. rewrite list_elem_of_fmap. split.
  - intros ([pid p] & -> & Hp). apply elem_of_map_to_list in Hp.
    apply map_lookup_filter_Some in Hp as [Hp Hown]. by exists pid, p.
  - intros (pid & p & Hp & Hown & ->). exists (pid, p). split; [done |].
    apply elem_of_map_to_list, map_lookup_filter_Some. by split.
Qed.

Lemma Product_create_fresh (env : Env) (body : ProductBody) (owner : string) (w : World) :
  products w !! pk_uuid env = None →
  (∀ pid p, products w !! pid = Some p → is_Some (b_sku body) → Product.sku p ≠ b_sku body) →
  let p := Product.mk (b_name body) (b_description body) (b_sku body)
                      (b_manufacturer body) (b_quantity body) owner in
  Product_create env (b_name body) (b_description body) (b_sku body)
                 (b_manufacturer body) (b_quantity body) owner w
  = (inr (pk_uuid env, p), with_products (<[pk_uuid env := p]> (products w)) w).
Proof.
  intros Hpk Hsku p. unfold Product_create.
  rewrite (bool_decide_eq_false_2 (is_Some (products w !! pk_uuid env)))
    by (rewrite Hpk; by intros [? ?]).
  cbn [orb].
  case_bool_decide as Hs; cbn [andb]; [| done].
  rewrite bool_decide_eq_false_2; [done |].
  intros ([pid q] & Hq & Heq)%Exists_exists.
  apply elem_of_map_to_list in Hq. by eapply Hsku.
Qed.

(** X17.  A created product belongs to its creator: POST /v1/product stores
    the body under a fresh id with the caller as owner and answers 201
    with it; from then on GET on that id answers the creator with the
    same product and every other caller with 403. *)
Theorem created_product_belongs_to_its_creator
    (env : Env) (u : User.t) (body : ProductBody) (w : World) :
  validateProductCreate body = [] →
  products w !! pk_uuid env = None →
  (∀ pid p, products w !! pid = Some p → is_Some (b_sku body) → Product.sku p ≠ b_sku body) →
  let p := Product.mk (b_name body) (b_description body) (b_sku body)
                      (b_manufacturer body) (b_quantity body) (User.id u) in
  let r := post_product None env u body w in
  r = (json 201 (Product.get (pk_uuid env) p),
       with_products (<[pk_uuid env := p]> (products w)) w)
  ∧ (∀ env', throws env' Call.Product_findByPk = None →
       handle env' (GET_product u (pk_uuid env)) r.2
       = (json 200 (Product.get (pk_uuid env) p), mkSys r.2 [Call.Product_findByPk]))
  ∧ (∀ env' other, throws env' Call.Product_findByPk = None →
       User.id other ≠ User.id u →
       handle env' (GET_product other (pk_uuid env)) r.2
       = (end_ 403, mkSys r.2 [Call.Product_findByPk])).
Proof.
  intros Hval%nonempty_nil Hpk Hsku p r.
  assert (Hr : r = (json 201 (Product.get (pk_uuid env) p),
                    with_products (<[pk_uuid env := p]> (products w)) w)).
  { subst r. unfold post_product. rewrite Hval.
    by rewrite Product_create_fresh. }
  split; [exact Hr |]. rewrite Hr. cbn [snd].
  assert (Hl : products (with_products (<[pk_uuid env := p]> (products w)) w)
               !! pk_uuid env = Some p) by apply lookup_insert_eq.
  split.
  - intros env' Hfind.
    assert (Hown : String.eqb (Product.owner_user_id p) (User.id u) = true)
      by apply String.eqb_refl.
    run_handler. reflexivity.
  - intros env' other Hfind Hother.
    assert (Hown : String.eqb (Product.owner_user_id p) (User.id other) = false)
      by (apply String.eqb_neq; cbn; congruence).
    run_handler. reflexivity.
Qed.

(** *** What the item routes keep *)

(** X18.  The owner of a product never changes, and the item and image
    routes create no product: a product found after a request was
    there before it, with the same owner. *)
Theorem product_owner_never_changes
    (env : Env) (req : Request) (w : World) (pid : string) (p' : Product.t) :
  products (store (handle env req w).2) !! pid = Some p' →
  ∃ p, products w !! pid = Some p
       ∧ Product.owner_user_id p' = Product.owner_user_id p.
Proof.
  revert p'. destruct req; run_handler; intros p' Hp'; eauto.
  - rewrite lookup_alter in Hp'. case_decide; [| by eauto].
    subst. destruct (products w !! pid) as [p|]; [| done].
    injection Hp' as <-. by exists p.
  - rewrite lookup_alter in Hp'. case_decide; [| by eauto].
    subst. destruct (products w !! pid) as [p|]; [| done].
    injection Hp' as <-. by exists p.
  - apply lookup_delete_Some in Hp' as [_ Hp']. eauto.
Qed.

Lemma put_product_result
    (env : Env) (u : User.t) (pid : string) (p : Product.t) (b : ProductBody) (w : World) :
  products w !! pid = Some p →
  Product.owner_user_id p = User.id u →
  throws env Call.Product_findByPk = None →
  validateProductUpdate b = [] →
  throws env Call.Product_save = None →
  handle env (PUT_product u pid b) w
  = (end_ 204,
     mkSys (with_products (alter (assign_all b) pid (products w)) w)
           [Call.Product_findByPk; Call.Product_save]).
Proof.
  intros Hp Hown%String.eqb_eq Hfind Hval%nonempty_nil Hsave.
  run_handler. reflexivity.
Qed.

Lemma patch_product_result
    (env : Env) (u : User.t) (pid : string) (p : Product.t) (b : ProductBody) (w : World) :
  products w !! pid = Some p →
  Product.owner_user_id p = User.id u →
  throws env Call.Product_findByPk = None →
  validateProductPatch b = [] →
  hasValidField b = true →
  throws env Call.Product_save = None →
  handle env (PATCH_product u pid b) w
  = (end_ 204,
     mkSys (with_products (alter (assign_defined b) pid (products w)) w)
           [Call.Product_findByPk; Call.Product_save]).
Proof.
  intros Hp Hown%String.eqb_eq Hfind Hval%nonempty_nil Hfield Hsave.
  run_handler. reflexivity.
Qed.

Lemma lookup_alter_same {A} (f : A → A) (k : string) (x : A) (m : gmap string A) :
  m !! k = Some x → alter f k m !! k = Some (f x).
Proof. intros H. rewrite lookup_alter. case_decide; [by rewrite H | done]. Qed.

(** X19.  PUT writes the body: after the owner's successful PUT, GET answers
    with each of the five attributes as the body gives it, and as it
    was before where the body leaves it undefined, with the same owner;
    a body that gives all five is read back as it was sent. *)
Theorem put_then_get_returns_the_body
    (env env' : Env) (u : User.t) (pid : string) (p : Product.t) (b : ProductBody)
    (w : World) :
  products w !! pid = Some p →
  Product.owner_user_id p = User.id u →
  throws env Call.Product_findByPk = None →
  validateProductUpdate b = [] →
  throws env Call.Product_save = None →
  throws env' Call.Product_findByPk = None →
  let w1 := store (handle env (PUT_product u pid b) w).2 in
  let p1 := Product.mk (from_option Some (Product.name p) (b_name b))
                       (from_option Some (Product.description p) (b_description b))
                       (from_option Some (Product.sku p) (b_sku b))
                       (from_option Some (Product.manufacturer p) (b_manufacturer b))
                       (from_option Some (Product.quantity p) (b_quantity b))
                       (User.id u) in
  handle env' (GET_product u pid) w1
  = (json 200 (Product.get pid p1), mkSys w1 [Call.Product_findByPk])
  ∧ (is_Some (b_name b) → is_Some (b_description b) → is_Some (b_sku b) →
     is_Some (b_manufacturer b) → is_Some (b_quantity b) →
     p1 = Product.mk (b_name b) (b_description b) (b_sku b) (b_manufacturer b)
                     (b_quantity b) (User.id u)).
Proof.
  intros Hp Hown Hfind Hval Hsave Hfind' w1 p1. subst w1.
  rewrite (put_product_result env u pid p b w) by done. cbn [store snd].
  pose proof (lookup_alter_same (assign_all b) pid p (products w) Hp) as Hl.
  apply String.eqb_eq in Hown as Hown'.
  assert (Hp1 : assign_all b p = p1).
  { subst p1. unfold assign_all, if_defined. rewrite Hown.
    by destruct (b_name b), (b_description b), (b_sku b), (b_manufacturer b),
      (b_quantity b). }
  split.
  - rewrite Hp1 in Hl.
    assert (Hown1 : String.eqb (Product.owner_user_id p1) (User.id u) = true)
      by apply String.eqb_refl.
    clearbody p1. run_handler. reflexivity.
  - subst p1. by intros [? ->] [? ->] [? ->] [? ->] [? ->].
Qed.

(** X20.  A PATCH that names none of the five attributes is answered 400 and
    writes nothing. *)
Theorem empty_patch_is_rejected
    (env : Env) (u : User.t) (pid : string) (p : Product.t) (b : ProductBody) (w : World) :
  products w !! pid = Some p →
  Product.owner_user_id p = User.id u →
  throws env Call.Product_findByPk = None →
  validateProductPatch b = [] →
  hasValidField b = false →
  handle env (PATCH_product u pid b) w = (end_ 400, mkSys w [Call.Product_findByPk]).
Proof.
  intros Hp Hown%String.eqb_eq Hfind Hval%nonempty_nil Hfield.
  run_handler. reflexivity.
Qed.

Lemma assign_defined_idempotent (b : ProductBody) (p : Product.t) :
  assign_defined b (assign_defined b p) = assign_defined b p.
Proof.
  unfold assign_defined. cbn.
  by destruct (b_name b), (b_description b), (b_sku b), (b_manufacturer b), (b_quantity b).
Qed.

(** X21.  PATCH changes the named attributes only: after the owner's
    successful PATCH each attribute of the product is the body's when
    the body names it and the old one otherwise, every other product is
    untouched, and sending the same PATCH again changes nothing more. *)
Theorem patch_changes_named_attributes_only
    (env env' : Env) (u : User.t) (pid : string) (p : Product.t) (b : ProductBody)
    (w : World) :
  products w !! pid = Some p →
  Product.owner_user_id p = User.id u →
  throws env Call.Product_findByPk = None →
  validateProductPatch b = [] →
  hasValidField b = true →
  throws env Call.Product_save = None →
  throws env' Call.Product_findByPk = None →
  throws env' Call.Product_save = None →
  let w1 := store (handle env (PATCH_product u pid b) w).2 in
  let p1 := Product.mk (from_option Some (Product.name p) (b_name b))
                       (from_option Some (Product.description p) (b_description b))
                       (from_option Some (Product.sku p) (b_sku b))
                       (from_option Some (Product.manufacturer p) (b_manufacturer b))
                       (from_option Some (Product.quantity p) (b_quantity b))
                       (Product.owner_user_id p) in
  products w1 !! pid = Some p1
  ∧ (∀ pid', pid' ≠ pid → products w1 !! pid' = products w !! pid')
  ∧ store (handle env' (PATCH_product u pid b) w1).2 = w1.
Proof.
  intros Hp Hown Hfind Hval Hfield Hsave Hfind' Hsave' w1 p1. subst w1.
  rewrite (patch_product_result env u pid p b w) by done. cbn [store snd].
  pose proof (lookup_alter_same (assign_defined b) pid p (products w) Hp) as Hl.
  assert (Hp1 : assign_defined b p = p1).
  { subst p1. unfold assign_defined, if_defined.
    by destruct (b_name b), (b_description b), (b_sku b), (b_manufacturer b),
      (b_quantity b). }
  split; [by rewrite <- Hp1 |]. split.
  - intros pid' Hne. cbn. by rewrite lookup_alter_ne.
  - rewrite (patch_product_result env' u pid (assign_defined b p) b); try done.
    cbn [store snd]. unfold with_products. cbn. f_equal.
    apply map_eq. intros k. rewrite !lookup_alter. case_decide; [| done].
    subst k. rewrite decide_True by done. rewrite Hp.
    cbn -[assign_defined]. by rewrite assign_defined_idempotent.
Qed.

(** X22.  Deleting a product deletes its image rows and nothing in the
    bucket: after the owner's successful DELETE the product is gone,
    the image rows left are exactly those of other products, the
    objects in the bucket are all still there, and the only calls were
    the lookup and the destroy. *)
Theorem product_delete_cascades_to_rows_only
    (env : Env) (u : User.t) (pid : string) (p : Product.t) (w : World) :
  products w !! pid = Some p →
  Product.owner_user_id p = User.id u →
  throws env Call.Product_findByPk = None →
  throws env Call.Product_destroy = None →
  let r := handle env (DELETE_product u pid) w in
  r.1 = end_ 204
  ∧ calls r.2 = [Call.Product_findByPk; Call.Product_destroy]
  ∧ products (store r.2) = delete pid (products w)
  ∧ (∀ iid i, images (store r.2) !! iid = Some i
              ↔ images w !! iid = Some i ∧ Image.product_id i ≠ pid)
  ∧ bucket (store r.2) = bucket w.
Proof.
  intros Hp Hown%String.eqb_eq Hfind Hdestroy r. subst r.
  run_handler. split; [done | split; [done | split; [done | split; [| done]]]].
  intros iid i. apply map_lookup_filter_Some.
Qed.

(** *** Uploading, reading and deleting images *)

Lemma owned_product (u : User.t) (p : Product.t) :
  Product.owner_user_id p = User.id u →
  String.eqb (Product.owner_user_id p) (User.id u) = true.
Proof. apply String.eqb_eq. Qed.

(** X23.  An upload by the owner stores the bytes under the key
    userId/productId/randomUUID.ext and a row that names the product,
    the original file name and that key, and answers 201 with the row;
    GET on the new image id then answers with the same five fields. *)
Theorem upload_stores_object_and_row
    (env : Env) (u : User.t) (pid : string) (p : Product.t) (file : File) (w : World) :
  products w !! pid = Some p →
  Product.owner_user_id p = User.id u →
  throws env Call.Product_findOne = None →
  throws env Call.S3_PutObject = None →
  throws env Call.Image_create = None →
  images w !! pk_uuid env = None →
  let key := User.id u ++ "/" ++ pid ++ "/" ++ randomUUID env ++ extname (originalname file) in
  let i := Image.mk pid (originalname file) key (clock env) in
  let r := handle env (POST_image u pid (Some file)) w in
  r = (json 201 (Image.fields (pk_uuid env) i),
       mkSys (with_images (<[pk_uuid env := i]> (images w))
                (with_bucket (<[key := buffer file]> (bucket w)) w))
             [Call.Product_findOne; Call.S3_PutObject; Call.Image_create])
  ∧ ∀ env', throws env' Call.Product_findOne = None →
            throws env' Call.Image_findOne = None →
            handle env' (GET_image u pid (pk_uuid env)) (store r.2)
            = (json 200 (Image.fields (pk_uuid env) i),
               mkSys (store r.2) [Call.Product_findOne; Call.Image_findOne]).
Proof.
  intros Hp Hown%owned_product Hfind Hput Hcreate Hfresh key i r.
  assert (Hr : r = (json 201 (Image.fields (pk_uuid env) i),
       mkSys (with_images (<[pk_uuid env := i]> (images w))
                (with_bucket (<[key := buffer file]> (bucket w)) w))
             [Call.Product_findOne; Call.S3_PutObject; Call.Image_create])).
  { subst r i key. run_handler. reflexivity. }
  split; [exact Hr |]. rewrite Hr. cbn [store snd].
  intros env' Hfind' Hifind'.
  assert (Hl : images (with_images (<[pk_uuid env := i]> (images w))
                         (with_bucket (<[key := buffer file]> (bucket w)) w))
               !! pk_uuid env = Some i) by apply lookup_insert_eq.
  assert (Hpid : String.eqb (Image.product_id i) pid = true) by apply String.eqb_refl.
  run_handler. reflexivity.
Qed.

(** X24.  A failed upload is not compensated.  When the bucket rejects the
    bytes the answer is 500 and nothing is stored; when the bucket
    accepts them and the table rejects the row the answer is 500 and
    the object stays in the bucket without a row. *)
Theorem failed_upload_is_not_rolled_back
    (env : Env) (u : User.t) (pid : string) (p : Product.t) (file : File) (w : World) :
  products w !! pid = Some p →
  Product.owner_user_id p = User.id u →
  throws env Call.Product_findOne = None →
  let key := User.id u ++ "/" ++ pid ++ "/" ++ randomUUID env ++ extname (originalname file) in
  let r := handle env (POST_image u pid (Some file)) w in
  match throws env Call.S3_PutObject, throws env Call.Image_create with
  | Some _, _ =>
      r = (json 500 (err "Failed to upload image"),
           mkSys w [Call.Product_findOne; Call.S3_PutObject])
  | None, Some _ =>
      r = (json 500 (err "Failed to upload image"),
           mkSys (with_bucket (<[key := buffer file]> (bucket w)) w)
                 [Call.Product_findOne; Call.S3_PutObject; Call.Image_create])
  | None, None => status r.1 = 201 ∨ status r.1 = 500
  end.
Proof.
  intros Hp Hown%owned_product Hfind key r. subst r key.
  destruct (throws env Call.S3_PutObject) eqn:Hput;
    [| destruct (throws env Call.Image_create) eqn:Hcreate];
    run_handler; auto.
Qed.


(** X26.  The list of images of a product holds the rows of that product
    and no others, and reads only. *)
Theorem image_list_is_the_products_own
    (env : Env) (u : User.t) (pid : string) (p : Product.t) (w : World) :
  products w !! pid = Some p →
  Product.owner_user_id p = User.id u →
  throws env Call.Product_findOne = None →
  throws env Call.Image_findAll = None →
  ∃ l, handle env (GET_images u pid) w
       = (json_list 200 l, mkSys w [Call.Product_findOne; Call.Image_findAll])
       ∧ ∀ o, o ∈ l ↔ ∃ iid i, images w !! iid = Some i
                                ∧ Image.product_id i = pid
                                ∧ o = Image.fields iid i.
Proof.
  intros Hp Hown%owned_product Hfind Hall.
  eexists. split; [run_handler; reflexivity |].
  intros o. rewrite list_elem_of_fmap. split.
  - intros ([iid i] & -> & Hi). apply elem_of_map_to_list in Hi.
    apply map_lookup_filter_Some in Hi as [Hi Hpid]. by exists iid, i.
  - intros (iid & i & Hi & Hpid & ->). exists (iid, i). split; [done |].
    apply elem_of_map_to_list, map_lookup_filter_Some. by split.
Qed.

Lemma delete_image_result
    (env : Env) (u : User.t) (pid iid : string) (p : Product.t) (i : Image.t) (w : World) :
  throws env Call.Product_findOne = None →
  throws env Call.Image_findOne = None →
  throws env Call.S3_DeleteObject = None →
  throws env Call.Image_destroy = None →
  products w !! pid = Some p →
  Product.owner_user_id p = User.id u →
  images w !! iid = Some i →
  Image.product_id i = pid →
  handle env (DELETE_image u pid iid) w
  = (end_ 204,
     mkSys (with_images (delete iid (images w))
              (with_bucket (delete (Image.s3_bucket_path i) (bucket w)) w))
           [Call.Product_findOne; Call.Image_findOne;
            Call.S3_DeleteObject; Call.Image_destroy]).
Proof.
  intros Hpf Hif Hs3 Hdb Hp Hown%owned_product Hi Hpid%String.eqb_eq.
  run_handler. reflexivity.
Qed.

(** X27.  A deleted image is gone: after the owner's successful DELETE the
    object is no longer in the bucket, and both GET and a second DELETE
    of the same image are answered 404 without another call to the
    bucket. *)
Theorem deleted_image_is_not_found_again
    (env env' : Env) (u : User.t) (pid iid : string) (p : Product.t) (i : Image.t)
    (w : World) :
  throws env Call.Product_findOne = None →
  throws env Call.Image_findOne = None →
  throws env Call.S3_DeleteObject = None →
  throws env Call.Image_destroy = None →
  products w !! pid = Some p →
  Product.owner_user_id p = User.id u →
  images w !! iid = Some i →
  Image.product_id i = pid →
  throws env' Call.Product_findOne = None →
  throws env' Call.Image_findOne = None →
  let w1 := store (handle env (DELETE_image u pid iid) w).2 in
  bucket w1 !! Image.s3_bucket_path i = None
  ∧ handle env' (GET_image u pid iid) w1
    = (json 404 (err "Image not found"), mkSys w1 [Call.Product_findOne; Call.Image_findOne])
  ∧ handle env' (DELETE_image u pid iid) w1
    = (json 404 (err "Image not found"), mkSys w1 [Call.Product_findOne; Call.Image_findOne]).
Proof.
  intros Hpf Hif Hs3 Hdb Hp Hown Hi Hpid Hpf' Hif' w1. subst w1.
  rewrite (delete_image_result env u pid iid p i w) by done. cbn [store snd].
  split; [apply lookup_delete_eq |].
  apply owned_product in Hown.
  assert (Hgone : images (with_images (delete iid (images w))
                            (with_bucket (delete (Image.s3_bucket_path i) (bucket w)) w))
                  !! iid = None) by apply lookup_delete_eq.
  split; run_handler; reflexivity.
Qed.

End Handlers.

(** ** The statements at sample inputs *)

Abbreviation sample_handle :=
  (handle no_errors no_errors no_errors no_errors
          sample_isEmail sample_hashSync sample_extname).




(** Bob presents his token at the very instant it expires: verified. *)
Lemma verification_expiry_witness :
  let r := sample_handle env_ok (GET_user_verify (Some "bob@example.com") (Some "tok-bob"))
                         sample_world in
  clock env_ok = 61000
  ∧ User.verification_token_expiry bob = Some 61000
  ∧ r.1 = json 200 (msg "Email verified successfully")
  ∧ List.find (by_username "bob@example.com") (users (store r.2))
    = Some (verified_row 61000 bob).
Proof.
  pose proof (verification_expiry_is_strict
                no_errors no_errors no_errors no_errors
                sample_isEmail sample_hashSync sample_extname
                env_ok "bob@example.com" "tok-bob" bob 61000 sample_world
                ltac:(discriminate) ltac:(discriminate)
                eq_refl eq_refl eq_refl eq_refl eq_refl) as [_ H].
  specialize (H ltac:(vm_compute; discriminate) eq_refl).
  destruct H as (H1 & _ & H2 & _).
  repeat split; assumption.
Defined.

(** Carol's registration is answered 201 and adds her row, unverified
    with a token and its expiry; Bob's check with his token is answered
    as verified and his row is stored verified, token and expiry null. *)
Lemma verification_state_witness :
  (let r := sample_handle env_ok (POST_user carol_body) sample_world in
   status r.1 = 201
   ∧ ∃ u, users (store r.2) = [alice; bob; u]
          ∧ User.email_verified u = false
          ∧ User.verification_token u = Some "tok-new"
          ∧ User.verification_token_expiry u = Some 121000)
  ∧ (let r := sample_handle env_ok (GET_user_verify (Some "bob@example.com") (Some "tok-bob"))
                            sample_world in
     r.1 = json 200 (msg "Email verified successfully")
     ∧ ∃ un u, Some "bob@example.com" = Some un
               ∧ List.find (by_username un) (users sample_world) = Some u
               ∧ User.email_verified u = false
               ∧ List.find (by_username un) (users (store r.2)) = Some (verified_row 61000 u)
               ∧ verification_fields (verified_row 61000 u) = (User.id u, true, None, None)).
Proof.
  destruct (verification_state_invariant
              no_errors no_errors no_errors no_errors
              sample_isEmail sample_hashSync sample_extname)
    as (_ & _ & _ & _ & Hreg & Hver).
  destruct (Hreg env_ok carol_body sample_world) as [Hcreated _].
  destruct (Hver env_ok (Some "bob@example.com") (Some "tok-bob") sample_world)
    as [Hverified _].
  assert (H201 : status (sample_handle env_ok (POST_user carol_body) sample_world).1 = 201)
    by (vm_compute; reflexivity).
  assert (H200 : (sample_handle env_ok
                    (GET_user_verify (Some "bob@example.com") (Some "tok-bob"))
                    sample_world).1
                 = json 200 (msg "Email verified successfully"))
    by (vm_compute; reflexivity).
  split; cbv zeta.
  - split; [exact H201 |]. exact (Hcreated H201).
  - split; [exact H200 |]. exact (Hverified H200).
Defined.

(** Alice is verified; a token that was never hers is answered 200. *)
Lemma verified_identity_witness :
  sample_handle env_ok (GET_user_verify (Some "alice@example.com") (Some "not-her-token"))
                sample_world
  = (json 200 (msg "Email already verified"), mkSys sample_world [Call.User_findOne]).
Proof.
  pose proof (verified_identity_check_is_idempotent
                no_errors no_errors no_errors no_errors
                sample_isEmail sample_hashSync sample_extname
                env_ok env_ok "alice@example.com" "not-her-token" alice sample_world
                ltac:(discriminate) ltac:(discriminate)
                eq_refl eq_refl eq_refl eq_refl) as [H _].
  exact H.
Defined.

(** The bucket rejects the delete of the teapot's photo: 500, the row stays. *)
Lemma image_delete_witness :
  let r := sample_handle (env_failing Call.S3_DeleteObject)
                         (DELETE_image alice teapot_id photo_id) sample_world in
  status r.1 = 500
  ∧ store r.2 = sample_world
  ∧ calls r.2 = [Call.Product_findOne; Call.Image_findOne; Call.S3_DeleteObject].
Proof.
  pose proof (image_delete_is_bucket_then_row
                no_errors no_errors no_errors no_errors
                sample_isEmail sample_hashSync sample_extname
                (env_failing Call.S3_DeleteObject) alice teapot_id photo_id teapot photo
                sample_world eq_refl eq_refl eq_refl eq_refl eq_refl eq_refl) as H.
  cbv zeta in H.
  change (throws (env_failing Call.S3_DeleteObject) Call.S3_DeleteObject)
    with (Some (mkExn "Error" "service unavailable")) in H.
  cbv iota beta in H. cbv zeta. rewrite H. repeat split.
Defined.

(** The topic rejects the publish of Carol's registration: 201 all the same. *)
Lemma registration_witness :
  let r := sample_handle (env_failing Call.SNS_Publish) (POST_user carol_body) sample_world in
  let carol := registered_row sample_hashSync (env_failing Call.SNS_Publish)
                              "Carol" "Danvers" "Sup3rSecret!" "carol@example.com" in
  r.1 = json 201 (User.toJSON carol)
  ∧ users (store r.2) = [alice; bob; carol]
  ∧ topic (store r.2) = [].
Proof.
  pose proof (registration_survives_publish_failure
                no_errors no_errors no_errors no_errors
                sample_isEmail sample_hashSync sample_extname
                (env_failing Call.SNS_Publish) carol_body
                "Carol" "Danvers" "Sup3rSecret!" "carol@example.com" sample_world
                eq_refl eq_refl eq_refl eq_refl eq_refl eq_refl eq_refl eq_refl eq_refl
                eq_refl) as (H1 & H2 & H3).
  cbv zeta. split; [exact H1 | split; [exact H2 |]].
  apply H3. right. vm_compute. eauto.
Defined.

(** PUT /v1/user/self reaches the :userId route, and "self" is no UUID. *)
Lemma malformed_user_id_witness :
  sample_handle env_ok (GET_user alice "self") sample_world
  = (end_ 400, mkSys sample_world [])
  ∧ sample_handle env_ok (PUT_user alice "self" carol_body) sample_world
    = (end_ 400, mkSys sample_world []).
Proof.
  apply (malformed_user_id_rejected_before_any_lookup
           no_errors no_errors no_errors no_errors
           sample_isEmail sample_hashSync sample_extname).
  intros H%isValidUUID_spec. vm_compute in H. discriminate H.
Defined.

(** C9 at HEAD.  A HEAD request on /healthz is served by the route
    registered with [router.get]: a check row is written and the
    answer is 200, where the claim says 405. *)
Theorem healthz_head_is_answered_200 :
  sample_handle env_ok (HEALTHZ HEAD None) sample_world
  = (mkResponse 200 no_cache NoBody,
     mkSys (with_health_checks [clock env_ok] sample_world) [Call.HealthCheck_create]).
Proof. vm_compute. reflexivity. Qed.

(** ** The further statements at sample inputs *)

Lemma verify_requires_both_parameters_witness :
  sample_handle env_ok (GET_user_verify (Some "bob@example.com") None) sample_world
  = (json 400 (err "Email and token are required"), mkSys sample_world []).
Proof. apply verify_requires_both_parameters. reflexivity. Defined.

Lemma verify_unknown_email_witness :
  sample_handle env_ok (GET_user_verify (Some "nobody@example.com") (Some "tok-bob"))
                sample_world
  = (json 404 (err "User not found"), mkSys sample_world [Call.User_findOne]).
Proof. apply verify_unknown_email; [discriminate | discriminate | reflexivity | reflexivity]. Defined.

(** A guess at Bob's token, a minute after it expired. *)
Lemma verify_wrong_token_witness :
  sample_handle env_late (GET_user_verify (Some "bob@example.com") (Some "guess"))
                sample_world
  = (json 400 (err "Invalid verification token"), mkSys sample_world [Call.User_findOne]).
Proof.
  apply (verify_wrong_token no_errors no_errors no_errors no_errors
           sample_isEmail sample_hashSync sample_extname
           env_late "bob@example.com" "guess" bob sample_world);
    [discriminate | discriminate | reflexivity | reflexivity | reflexivity | discriminate].
Defined.

(** Bob verifies at the expiry instant and presents the token again later. *)
Lemma verification_token_is_single_use_witness :
  let req := GET_user_verify (Some "bob@example.com") (Some "tok-bob") in
  let w1 := store (sample_handle env_ok req sample_world).2 in
  sample_handle env_late req w1
  = (json 200 (msg "Email already verified"), mkSys w1 [Call.User_findOne]).
Proof.
  apply (verification_token_is_single_use no_errors no_errors no_errors no_errors
           sample_isEmail sample_hashSync sample_extname
           env_ok env_late "bob@example.com" "tok-bob" bob 61000 sample_world);
    first [discriminate | reflexivity].
Defined.

(** Alice is still there, verified, after she updates her profile. *)
Lemma identities_persist_witness :
  ∃ u', u' ∈ users (store (sample_handle env_ok (PUT_user alice (User.id alice) dave_update)
                                         sample_world).2)
        ∧ User.id u' = User.id alice ∧ User.username u' = User.username alice
        ∧ User.account_created u' = User.account_created alice
        ∧ (User.email_verified alice = true → User.email_verified u' = true).
Proof. apply identities_persist. apply list_elem_of_here. Defined.

Lemma identities_stay_unique_witness :
  NoDup (User.username <$> users (store (sample_handle env_ok (POST_user carol_body)
                                                       sample_world).2))
  ∧ NoDup (User.id <$> users (store (sample_handle env_ok (POST_user carol_body)
                                                   sample_world).2)).
Proof.
  apply identities_stay_unique;
    apply (bool_decide_unpack _); vm_compute; reflexivity.
Defined.

Lemma duplicate_registration_witness :
  sample_handle env_ok (POST_user alice_again) sample_world
  = (json 400 (err "User with this email already exists"),
     mkSys sample_world [Call.User_findOne]).
Proof.
  apply (duplicate_registration_is_rejected no_errors no_errors no_errors no_errors
           sample_isEmail sample_hashSync sample_extname
           env_ok alice_again "alice@example.com" alice sample_world);
    reflexivity.
Defined.

Lemma invalid_registration_witness :
  handle objects no_errors no_errors no_errors sample_isEmail sample_hashSync sample_extname
         env_ok (POST_user carol_body) sample_world
  = (json 400 (errs (objects carol_body)), mkSys sample_world []).
Proof. apply invalid_registration_is_rejected. discriminate. Defined.

(** Carol registers at 61000 and presents the published token at the
    same instant: verified. *)
Lemma registration_then_verification_witness :
  let r1 := sample_handle env_ok (POST_user carol_body) sample_world in
  let r2 := sample_handle env_ok (GET_user_verify (Some "carol@example.com") (Some "tok-new"))
                          (store r1.2) in
  topic (store r1.2)
  = [mkSns (Some "carol@example.com") (Some "Carol") (Some "Danvers") "tok-new"]
  ∧ r2.1 = json 200 (msg "Email verified successfully").
Proof.
  pose proof (registration_then_verification no_errors no_errors no_errors no_errors
                sample_isEmail sample_hashSync sample_extname
                env_ok env_ok carol_body "Carol" "Danvers" "Sup3rSecret!" "carol@example.com"
                sample_world
                eq_refl eq_refl eq_refl eq_refl eq_refl eq_refl eq_refl eq_refl eq_refl
                eq_refl eq_refl eq_refl ltac:(discriminate) ltac:(discriminate)
                eq_refl eq_refl) as [H1 H2].
  cbv zeta. split; [exact H1 |].
  change (clock env_ok <=? clock env_ok + 60000)%Z with true in H2.
  exact (proj1 H2).
Defined.

(** Alice asks for herself with her id in upper case: the row is
    found, the spelling is not her id, 403 twice. *)
Lemma user_guard_witness :
  sample_handle env_ok (GET_user alice "A11CE000-0000-4000-8000-000000000001") sample_world
  = (end_ 403, mkSys sample_world [Call.User_findByPk])
  ∧ sample_handle env_ok (PUT_user alice "A11CE000-0000-4000-8000-000000000001" dave_update)
                  sample_world
    = (end_ 403, mkSys sample_world [Call.User_findByPk]).
Proof.
  pose proof (user_guard_existence_then_self no_errors no_errors no_errors no_errors
                sample_isEmail sample_hashSync sample_extname
                env_ok alice "A11CE000-0000-4000-8000-000000000001" dave_update
                sample_world) as H.
  apply H; [| reflexivity].
  apply isValidUUID_spec. vm_compute. reflexivity.
Defined.


Lemma put_user_requires_all_fields_witness :
  status (sample_handle env_ok (PUT_user alice (User.id alice) nameless_update)
                        sample_world).1 = 400
  ∧ (sample_handle env_ok (PUT_user alice (User.id alice) nameless_update) sample_world).2
    = mkSys sample_world [Call.User_findByPk].
Proof.
  apply (put_user_requires_all_fields no_errors no_errors no_errors no_errors
           sample_isEmail sample_hashSync sample_extname
           env_ok alice alice (User.id alice) nameless_update sample_world);
    [apply isValidUUID_spec; vm_compute; reflexivity
    | reflexivity | reflexivity | reflexivity | reflexivity].
Defined.

(** Bob creates a kettle; he reads it back and Alice is refused. *)
Lemma created_product_witness :
  let r := post_product no_errors None env_ok bob kettle_body sample_world in
  status r.1 = 201
  ∧ products r.2 !! kettle_id
    = Some (Product.mk (Some "Kettle") (Some "Copper") (Some "KET-1") (Some "Hatter") (Some 7)
                       (User.id bob))
  ∧ status (sample_handle env_ok (GET_product bob kettle_id) r.2).1 = 200
  ∧ status (sample_handle env_ok (GET_product alice kettle_id) r.2).1 = 403.
Proof.
  pose proof (created_product_belongs_to_its_creator
                no_errors no_errors no_errors no_errors
                sample_isEmail sample_hashSync sample_extname no_errors
                env_ok bob kettle_body sample_world eq_refl eq_refl) as H.
  destruct H as (Hr & Hget & Hother).
  { intros pid p Hp _. unfold sample_world in Hp. cbn [products] in Hp.
    apply lookup_singleton_Some in Hp as [_ <-]. discriminate. }
  cbv zeta. rewrite Hr in *. cbn [fst snd] in *.
  change kettle_id with (pk_uuid env_ok).
  rewrite (Hget env_ok eq_refl), (Hother env_ok alice eq_refl ltac:(discriminate)).
  repeat split.
Defined.

(** Alice replaces the teapot's attributes; its owner is still Alice. *)
Lemma product_owner_witness :
  ∃ p, products sample_world !! teapot_id = Some p
       ∧ Product.owner_user_id (assign_all kettle_body teapot) = Product.owner_user_id p.
Proof.
  apply (product_owner_never_changes no_errors no_errors no_errors no_errors
           sample_isEmail sample_hashSync sample_extname
           env_ok (PUT_product alice teapot_id kettle_body) sample_world teapot_id
           (assign_all kettle_body teapot)).
  vm_compute. reflexivity.
Defined.

Lemma put_then_get_witness :
  let w1 := store (sample_handle env_ok (PUT_product alice teapot_id quantity_only)
                                 sample_world).2 in
  sample_handle env_ok (GET_product alice teapot_id) w1
  = (json 200 (Product.get teapot_id
                 (Product.mk (Some "Teapot") (Some "Porcelain") (Some "TEA-1") (Some "Hatter")
                             (Some 9) (User.id alice))),
     mkSys w1 [Call.Product_findByPk]).
Proof.
  pose proof (put_then_get_returns_the_body no_errors no_errors no_errors no_errors
                sample_isEmail sample_hashSync sample_extname
                env_ok env_ok alice teapot_id teapot quantity_only sample_world
                (lookup_singleton_eq _ _) eq_refl eq_refl eq_refl eq_refl eq_refl) as [H _].
  exact H.
Defined.

Lemma empty_patch_witness :
  sample_handle env_ok (PATCH_product alice teapot_id empty_patch) sample_world
  = (end_ 400, mkSys sample_world [Call.Product_findByPk]).
Proof.
  apply (empty_patch_is_rejected no_errors no_errors no_errors no_errors
           sample_isEmail sample_hashSync sample_extname
           env_ok alice teapot_id teapot empty_patch sample_world);
    first [apply lookup_singleton_eq | reflexivity].
Defined.

(** Alice patches the quantity of the teapot: nothing else changes. *)
Lemma patch_witness :
  let w1 := store (sample_handle env_ok (PATCH_product alice teapot_id quantity_only)
                                 sample_world).2 in
  products w1 !! teapot_id
  = Some (Product.mk (Some "Teapot") (Some "Porcelain") (Some "TEA-1") (Some "Hatter")
                     (Some 9) (User.id alice))
  ∧ store (sample_handle env_ok (PATCH_product alice teapot_id quantity_only) w1).2 = w1.
Proof.
  pose proof (patch_changes_named_attributes_only
                no_errors no_errors no_errors no_errors
                sample_isEmail sample_hashSync sample_extname
                env_ok env_ok alice teapot_id teapot quantity_only sample_world
                (lookup_singleton_eq _ _) eq_refl eq_refl eq_refl eq_refl eq_refl
                eq_refl eq_refl) as (H1 & _ & H3).
  cbv zeta. split; [exact H1 | exact H3].
Defined.

(** Alice deletes the teapot: its photo row goes, the object stays. *)
Lemma product_delete_witness :
  let r := sample_handle env_ok (DELETE_product alice teapot_id) sample_world in
  r.1 = end_ 204
  ∧ images (store r.2) !! photo_id = None
  ∧ bucket (store r.2) !! Image.s3_bucket_path photo = Some "PNG...".
Proof.
  pose proof (product_delete_cascades_to_rows_only
                no_errors no_errors no_errors no_errors
                sample_isEmail sample_hashSync sample_extname
                env_ok alice teapot_id teapot sample_world
                (lookup_singleton_eq _ _) eq_refl eq_refl eq_refl)
    as (H1 & _ & _ & H4 & H5).
  cbv zeta. split; [exact H1 |]. split.
  - destruct (images _ !! photo_id) as [i|] eqn:Hi; [| reflexivity].
    apply H4 in Hi as [Hi Hne]. unfold sample_world in Hi. cbn [images] in Hi.
    apply lookup_singleton_Some in Hi as [_ <-].
    by destruct Hne.
  - rewrite H5. apply lookup_singleton_eq.
Defined.

(** Alice uploads a portrait of the teapot and reads it back. *)
Lemma upload_witness :
  let r := sample_handle env_ok (POST_image alice teapot_id (Some portrait)) sample_world in
  status r.1 = 201
  ∧ bucket (store r.2)
    !! "a11ce000-0000-4000-8000-000000000001/7ea90700-0000-4000-8000-000000000003/0b1ec700-0000-4000-8000-000000000006.png"
    = Some "PNG-bytes"
  ∧ status (sample_handle env_ok (GET_image alice teapot_id portrait_id) (store r.2)).1 = 200.
Proof.
  pose proof (upload_stores_object_and_row
                no_errors no_errors no_errors no_errors
                sample_isEmail sample_hashSync sample_extname
                env_ok alice teapot_id teapot portrait sample_world
                (lookup_singleton_eq _ _) eq_refl eq_refl eq_refl eq_refl) as H.
  destruct H as (Hr & Hget).
  { apply lookup_singleton_ne. discriminate. }
  cbv zeta. rewrite Hr in *. cbn [fst snd store] in *.
  change portrait_id with (pk_uuid env_ok).
  rewrite (Hget env_ok eq_refl eq_refl).
  repeat split.
Defined.

(** The bucket rejects the portrait: nothing is stored. *)
Lemma failed_upload_witness :
  sample_handle (env_failing Call.S3_PutObject) (POST_image alice teapot_id (Some portrait))
                sample_world
  = (json 500 (err "Failed to upload image"),
     mkSys sample_world [Call.Product_findOne; Call.S3_PutObject]).
Proof.
  pose proof (failed_upload_is_not_rolled_back
                no_errors no_errors no_errors no_errors
                sample_isEmail sample_hashSync sample_extname
                (env_failing Call.S3_PutObject) alice teapot_id teapot portrait sample_world
                (lookup_singleton_eq _ _) eq_refl eq_refl) as H.
  exact H.
Defined.


Lemma image_list_witness :
  ∃ l, sample_handle env_ok (GET_images alice teapot_id) sample_world
       = (json_list 200 l, mkSys sample_world [Call.Product_findOne; Call.Image_findAll])
       ∧ ∀ o, o ∈ l ↔ ∃ iid i, images sample_world !! iid = Some i
                                ∧ Image.product_id i = teapot_id
                                ∧ o = Image.fields iid i.
Proof.
  apply (image_list_is_the_products_own
           no_errors no_errors no_errors no_errors
           sample_isEmail sample_hashSync sample_extname
           env_ok alice teapot_id teapot sample_world);
    first [apply lookup_singleton_eq | reflexivity].
Defined.

(** Alice deletes the teapot's photo and asks for it again. *)
Lemma deleted_image_witness :
  let w1 := store (sample_handle env_ok (DELETE_image alice teapot_id photo_id)
                                 sample_world).2 in
  bucket w1 !! Image.s3_bucket_path photo = None
  ∧ sample_handle env_ok (GET_image alice teapot_id photo_id) w1
    = (json 404 (err "Image not found"), mkSys w1 [Call.Product_findOne; Call.Image_findOne])
  ∧ sample_handle env_ok (DELETE_image alice teapot_id photo_id) w1
    = (json 404 (err "Image not found"), mkSys w1 [Call.Product_findOne; Call.Image_findOne]).
Proof.
  apply (deleted_image_is_not_found_again
           no_errors no_errors no_errors no_errors
           sample_isEmail sample_hashSync sample_extname
           env_ok env_ok alice teapot_id photo_id teapot photo sample_world);
    first [apply lookup_singleton_eq | reflexivity].
Defined.
